(** * Airline customer-service agents: a shallow embedding of
      [python-backend/main.py]

    The module defines a shared context record, five stub tools, two
    handoff hooks, two input guardrails and a graph of agents wired by
    handoffs.  Tools and hooks receive the context object by reference
    and may assign to its fields before raising, so they are embedded in
    a state-and-exception monad over the context record: an exception
    does not roll the store back.  The turn that runs the guardrails of
    the active agent before anything else is described by the
    specification only and is modelled from it. *)

From Stdlib Require Import List String Ascii NArith Bool Lia.
Import ListNotations.

Local Open Scope N_scope.

(** ** Python [str] values *)

Module PyStr.

(** A Python [str] is a sequence of Unicode code points. *)
Definition codepoint := N.
Definition str := list codepoint.

(** Source literals are written as UTF-8 text; [utf8_decode] turns the
    bytes of such a literal into its code points.  Truncated sequences
    at the end of the input are dropped (they do not occur in the
    literals of this file). *)
Fixpoint utf8_decode (bs : list N) : str :=
  match bs with
  | [] => []
  | b0 :: r0 =>
    if b0 <? 128 then b0 :: utf8_decode r0
    else
      match r0 with
      | [] => []
      | b1 :: r1 =>
        if b0 <? 224 then ((b0 - 192) * 64 + (b1 - 128)) :: utf8_decode r1
        else
          match r1 with
          | [] => []
          | b2 :: r2 =>
            if b0 <? 240
            then ((b0 - 224) * 4096 + (b1 - 128) * 64 + (b2 - 128))
                   :: utf8_decode r2
            else
              match r2 with
              | [] => []
              | b3 :: r3 =>
                ((b0 - 240) * 262144 + (b1 - 128) * 4096
                 + (b2 - 128) * 64 + (b3 - 128)) :: utf8_decode r3
              end
          end
      end
  end.

Definition py (s : string) : str :=
  utf8_decode (map N_of_ascii (list_ascii_of_string s)).

(** [str.lower] on a code point of the Latin-1 range: [A-Z] and the
    accented capitals U+00C0..U+00DE (the multiplication sign U+00D7
    apart) move up by 32, everything else stays. *)
Definition lower_latin1 (c : codepoint) : codepoint :=
  if ((65 <=? c) && (c <=? 90))
     || ((192 <=? c) && (c <=? 222) && negb (c =? 215))
  then c + 32 else c.

Definition is_latin1 (s : str) : bool := forallb (fun c => c <? 256) s.

(** [p.startswith-at-0 s]: [p] is a prefix of [s]. *)
Fixpoint startswith (p s : str) : bool :=
  match p, s with
  | [], _ => true
  | _ :: _, [] => false
  | a :: p', b :: s' => (a =? b) && startswith p' s'
  end.

(** The operator [p in s] on strings: [p] occurs in [s] as a
    contiguous substring. *)
Fixpoint contains (p s : str) : bool :=
  startswith p s ||
  match s with
  | [] => false
  | _ :: s' => contains p s'
  end.

(** Truthiness of a string: non-empty. *)
Definition str_truthy (s : str) : bool :=
  match s with [] => false | _ :: _ => true end.

Section Lower.
(** The case table of the interpreter beyond Latin-1 (with its
    context-sensitive entries such as the final sigma) is not part of
    the repository; it is a parameter.  On strings made of Latin-1
    code points only, [lower] is the character map above. *)
Variable unicode_lower : str -> str.

Definition lower (s : str) : str :=
  if is_latin1 s then map lower_latin1 s else unicode_lower s.
End Lower.

End PyStr.
Import PyStr.

(** ** CONTEXT *)

Record AirlineAgentContext := mkContext {
  passenger_name : option str;
  confirmation_number : option str;
  seat_number : option str;
  flight_number : option str;
  account_number : option str
}.

Definition create_initial_context : AirlineAgentContext :=
  {| passenger_name := Some (py "Andre Chaves");
     confirmation_number := Some (py "ABC123");
     seat_number := Some (py "12A");
     flight_number := Some (py "FLT-456");
     account_number := Some (py "98765432") |}.

(** ** Effects: one shared context object, exceptions *)

Inductive exn := AssertionError (msg : str).

Inductive outcome (A : Type) :=
| Return (a : A)
| Raise (e : exn).
Arguments Return {A} a.
Arguments Raise {A} e.

(** A computation runs against the context object and leaves it in a
    possibly modified state whether it returns or raises. *)
Definition M (A : Type) : Type :=
  AirlineAgentContext -> outcome A * AirlineAgentContext.

Definition ret {A} (a : A) : M A := fun c => (Return a, c).

Definition bind {A B} (m : M A) (k : A -> M B) : M B :=
  fun c =>
    match m c with
    | (Return a, c') => k a c'
    | (Raise e, c') => (Raise e, c')
    end.

Declare Scope py_scope.
Delimit Scope py_scope with py.
Notation "x <- m ;; k" := (bind m (fun x => k))
  (at level 61, m at next level, right associativity) : py_scope.
Notation "m ;; k" := (bind m (fun _ => k))
  (at level 61, right associativity) : py_scope.
Local Open Scope py_scope.

(** [context.context.<field>] *)
Definition read {A} (field : AirlineAgentContext -> A) : M A :=
  fun c => (Return (field c), c).

(** [context.context.<field> = v] *)
Definition set_confirmation_number (v : option str) : M unit :=
  fun c => (Return tt,
            {| passenger_name := passenger_name c;
               confirmation_number := v;
               seat_number := seat_number c;
               flight_number := flight_number c;
               account_number := account_number c |}).

Definition set_seat_number (v : option str) : M unit :=
  fun c => (Return tt,
            {| passenger_name := passenger_name c;
               confirmation_number := confirmation_number c;
               seat_number := v;
               flight_number := flight_number c;
               account_number := account_number c |}).

Definition set_flight_number (v : option str) : M unit :=
  fun c => (Return tt,
            {| passenger_name := passenger_name c;
               confirmation_number := confirmation_number c;
               seat_number := seat_number c;
               flight_number := v;
               account_number := account_number c |}).

(** [assert cond, msg] *)
Definition assert_ (cond : bool) (msg : str) : M unit :=
  fun c => if cond then (Return tt, c) else (Raise (AssertionError msg), c).

(** [x is None], [x is not None] and the truth value of [str | None]. *)
Definition is_None {A} (x : option A) : bool :=
  match x with None => true | Some _ => false end.
Definition is_not_None {A} (x : option A) : bool := negb (is_None x).
Definition truthy (x : option str) : bool :=
  match x with None => false | Some s => str_truthy s end.

(** An f-string field holding [str | None]. *)
Definition format_field (x : option str) : str :=
  match x with None => py "None" | Some s => s end.

(** ** TOOLS *)

Definition baggage_text : str :=
  py "Você pode levar uma mala no avião. " ++
  py "Ela deve ter até 23 kg e medir no máximo 55cm x 35cm x 25cm.".

Definition seating_text : str :=
  py "O avião possui 120 assentos, sendo 22 na classe executiva e 98 na classe econômica. " ++
  py "As saídas de emergência ficam nas fileiras 4 e 16. " ++
  py "As fileiras 5 a 8 são Economy Plus, com mais espaço para as pernas.".

Definition wifi_text : str :=
  py "Temos wifi grátis no avião, basta conectar na rede Airline-Wifi.".

Definition flight_not_found_text : str :=
  py "Desculpe, não encontrei o número do seu voo.".

Definition fallback_text : str :=
  py "Desculpe, não sei a resposta para essa pergunta.".

Definition flight_required : str := py "Número do voo é obrigatório".

Section Tools.
Variable unicode_lower : str -> str.

(** The four keyword tests of [faq_lookup_tool], on the lowered
    question. *)
Definition baggage_keywords (q : str) : bool :=
  contains (py "bag") q || contains (py "baggage") q
  || contains (py "mala") q || contains (py "bagagem") q.

Definition seating_keywords (q : str) : bool :=
  contains (py "seats") q || contains (py "plane") q
  || contains (py "assento") q || contains (py "avião") q.

Definition wifi_keywords (q : str) : bool :=
  contains (py "wifi") q || contains (py "wi-fi") q.

Definition flight_keywords (q : str) : bool :=
  contains (py "flight") q || contains (py "voo") q
  || contains (py "vôo") q || contains (py "número do voo") q.

Definition faq_lookup_tool (question : str) : M str :=
  let q := lower unicode_lower question in
  if baggage_keywords q then ret baggage_text
  else if seating_keywords q then ret seating_text
  else if wifi_keywords q then ret wifi_text
  else if flight_keywords q then
    fn <- read flight_number ;;
    if truthy fn then
      fn' <- read flight_number ;;
      ret (py "O número do seu voo é: " ++ format_field fn' ++ py ".")
    else ret flight_not_found_text
  else ret fallback_text.

Definition baggage_tool (query : str) : M str :=
  let q := lower unicode_lower query in
  if contains (py "taxa") q || contains (py "fee") q
  then ret (py "A taxa para mala acima do peso é de R$350.")
  else if contains (py "franquia") q || contains (py "allowance") q
  then ret (py "Uma bagagem de mão e uma despachada (até 23 kg) estão incluídas.")
  else ret (py "Por favor, forneça mais detalhes sobre sua dúvida de bagagem.").
End Tools.

Definition update_seat (confirmation_number new_seat : str) : M str :=
  set_confirmation_number (Some confirmation_number) ;;
  set_seat_number (Some new_seat) ;;
  fn <- read flight_number ;;
  assert_ (is_not_None fn) flight_required ;;
  ret (py "Assento alterado para " ++ new_seat
       ++ py " para a reserva de confirmação " ++ confirmation_number).

Definition flight_status_tool (flight_number : str) : M str :=
  ret (py "O voo " ++ flight_number
       ++ py " está no horário previsto e partirá no portão A10.").

Definition display_seat_map : M str := ret (py "DISPLAY_SEAT_MAP").

Definition cancel_flight : M str :=
  fn <- read flight_number ;;
  assert_ (is_not_None fn) flight_required ;;
  ret (py "O voo " ++ format_field fn ++ py " foi cancelado com sucesso.").

(** ** HOOKS *)

Definition on_seat_booking_handoff : M unit :=
  fn <- read flight_number ;;
  (if is_None fn then set_flight_number (Some (py "FLT-456")) else ret tt) ;;
  cn <- read confirmation_number ;;
  (if is_None cn then set_confirmation_number (Some (py "ABC123")) else ret tt).

Definition on_cancellation_handoff : M unit :=
  cn <- read confirmation_number ;;
  (if is_None cn then set_confirmation_number (Some (py "ABC123")) else ret tt) ;;
  fn <- read flight_number ;;
  (if is_None fn then set_flight_number (Some (py "FLT-456")) else ret tt).

(** ** GUARDRAILS *)

Record RelevanceOutput := {
  relevance_reasoning : str;
  is_relevant : bool
}.

Record JailbreakOutput := {
  jailbreak_reasoning : str;
  is_safe : bool
}.

Record GuardrailFunctionOutput (A : Type) := {
  output_info : A;
  tripwire_triggered : bool
}.
Arguments output_info {A} g.
Arguments tripwire_triggered {A} g.

(** ** AGENTS *)

(** The seven [Agent] objects the module creates, by the module-level
    variable that holds each.  Handoff lists hold references to these
    objects, so an [append] to one agent's list is seen through every
    list that refers to that agent. *)
Inductive agent_id :=
| guardrail_agent
| jailbreak_guardrail_agent
| seat_booking_agent
| flight_status_agent
| cancellation_agent
| faq_agent
| triage_agent.

Definition agent_eqb (a b : agent_id) : bool :=
  match a, b with
  | guardrail_agent, guardrail_agent
  | jailbreak_guardrail_agent, jailbreak_guardrail_agent
  | seat_booking_agent, seat_booking_agent
  | flight_status_agent, flight_status_agent
  | cancellation_agent, cancellation_agent
  | faq_agent, faq_agent
  | triage_agent, triage_agent => true
  | _, _ => false
  end.

(** [output_type] of each agent; agents that declare none produce text. *)
Definition output_type (a : agent_id) : Type :=
  match a with
  | guardrail_agent => RelevanceOutput
  | jailbreak_guardrail_agent => JailbreakOutput
  | _ => str
  end.

(** An element of a [handoffs] list: a bare agent, or the object built by
    [handoff(agent=..., on_handoff=...)]. *)
Inductive handoff_entry :=
| to_agent (a : agent_id)
| handoff (agent : agent_id) (on_handoff : M unit).

Definition target (e : handoff_entry) : agent_id :=
  match e with
  | to_agent a => a
  | handoff a _ => a
  end.

Record Agent := {
  name : string;
  model : string;
  tools : list string;
  handoffs : list handoff_entry;
  input_guardrails : list string
}.

Definition both_guardrails : list string :=
  ["relevance_guardrail"; "jailbreak_guardrail"]%string.

(** The agents as their constructor calls leave them; [handoffs]
    defaults to the empty list. *)
Definition constructed (a : agent_id) : Agent :=
  match a with
  | guardrail_agent =>
    {| name := "Guarda de Relevância"; model := "gpt-4.1-mini";
       tools := []; handoffs := []; input_guardrails := [] |}
  | jailbreak_guardrail_agent =>
    {| name := "Guarda de Jailbreak"; model := "gpt-4.1-mini";
       tools := []; handoffs := []; input_guardrails := [] |}
  | seat_booking_agent =>
    {| name := "Agente de Assento"; model := "gpt-4.1";
       tools := ["update_seat"; "display_seat_map"]%string;
       handoffs := []; input_guardrails := both_guardrails |}
  | flight_status_agent =>
    {| name := "Agente de Status de Voo"; model := "gpt-4.1";
       tools := ["flight_status_tool"]%string;
       handoffs := []; input_guardrails := both_guardrails |}
  | cancellation_agent =>
    {| name := "Agente de Cancelamento"; model := "gpt-4.1";
       tools := ["cancel_flight"]%string;
       handoffs := []; input_guardrails := both_guardrails |}
  | faq_agent =>
    {| name := "Agente FAQ"; model := "gpt-4.1";
       tools := ["faq_lookup_tool"]%string;
       handoffs := []; input_guardrails := both_guardrails |}
  | triage_agent =>
    {| name := "Agente de Triagem"; model := "gpt-4.1";
       tools := [];
       handoffs :=
         [ to_agent flight_status_agent;
           handoff cancellation_agent on_cancellation_handoff;
           to_agent faq_agent;
           handoff seat_booking_agent on_seat_booking_handoff ];
       input_guardrails := both_guardrails |}
  end.

Definition heap := agent_id -> Agent.

(** [a.handoffs.append(e)] *)
Definition handoffs_append (h : heap) (a : agent_id) (e : handoff_entry) : heap :=
  fun x =>
    if agent_eqb x a
    then {| name := name (h x); model := model (h x); tools := tools (h x);
            handoffs := handoffs (h x) ++ [e];
            input_guardrails := input_guardrails (h x) |}
    else h x.

(** The agents once the module has been imported: the constructor calls,
    then the four appends that close the file. *)
Definition agents : heap :=
  let h := constructed in
  let h := handoffs_append h faq_agent (to_agent triage_agent) in
  let h := handoffs_append h seat_booking_agent (to_agent triage_agent) in
  let h := handoffs_append h flight_status_agent (to_agent triage_agent) in
  let h := handoffs_append h cancellation_agent (to_agent triage_agent) in
  h.

(** The agents a handoff from [a] may name. *)
Definition handoff_targets (a : agent_id) : list agent_id :=
  map target (handoffs (agents a)).

Definition find_handoff (a tgt : agent_id) : option handoff_entry :=
  find (fun e => agent_eqb (target e) tgt) (handoffs (agents a)).

(** The active agent after a sequence of handoff decisions, each naming
    its target; a target outside the active agent's list is refused. *)
Fixpoint follow (active : agent_id) (decisions : list agent_id) : option agent_id :=
  match decisions with
  | [] => Some active
  | tgt :: rest =>
    match find_handoff active tgt with
    | Some _ => follow tgt rest
    | None => None
    end
  end.

(** The five agents of the routing graph. *)
Definition routing_agents : list agent_id :=
  [triage_agent; seat_booking_agent; flight_status_agent;
   cancellation_agent; faq_agent].

Section Guardrails.
(** What a guardrail is given: the text of the message, or a list of
    input items whose type belongs to the framework. *)
Variable TResponseInputItem : Type.

Inductive guardrail_input :=
| input_text (s : str)
| input_items (items : list TResponseInputItem).

(** [Runner.run(agent, input, context=...)] followed by
    [final_output_as]: the framework and the model behind it, handed
    the context object. *)
Variable Runner_run : forall a : agent_id, guardrail_input -> M (output_type a).

Definition relevance_guardrail (agent : agent_id) (input : guardrail_input)
  : M (GuardrailFunctionOutput RelevanceOutput) :=
  final <- Runner_run guardrail_agent input ;;
  ret {| output_info := final;
         tripwire_triggered := negb (is_relevant final) |}.

Definition jailbreak_guardrail (agent : agent_id) (input : guardrail_input)
  : M (GuardrailFunctionOutput JailbreakOutput) :=
  final <- Runner_run jailbreak_guardrail_agent input ;;
  ret {| output_info := final;
         tripwire_triggered := negb (is_safe final) |}.
End Guardrails.
Arguments input_text {TResponseInputItem} s.
Arguments input_items {TResponseInputItem} items.

(** ** THE TURN *)

(** Modelled from the spec: what a run of an agent may do to the shared
    context.  The module only configures the framework; the run itself is
    not part of [main.py].  By the data model the context is mutated in
    place by tool invocations and handoff callbacks, and by nothing else:
    a run of agent [a] takes the context from [c] to [c'] by writing
    nothing, by a call of one of [a]'s tools (which may leave any
    context) followed by more of the run, or by one of [a]'s handoffs
    (whose callback may leave any context) followed by a run of the
    target. *)
Inductive run_may_turn : agent_id -> AirlineAgentContext -> AirlineAgentContext -> Prop :=
| run_writes_nothing (a : agent_id) (c : AirlineAgentContext) :
    run_may_turn a c c
| run_calls_tool (a : agent_id) (tool : string) (c c' c'' : AirlineAgentContext) :
    In tool (tools (agents a)) ->
    run_may_turn a c' c'' ->
    run_may_turn a c c''
| run_hands_off (a b : agent_id) (c c' c'' : AirlineAgentContext) :
    In b (handoff_targets a) ->
    run_may_turn b c' c'' ->
    run_may_turn a c c''.

(** Modelled from the spec: what a guardrail hands to the pipeline, a
    rationale and the trip decision. *)
Record guardrail_verdict := {
  rationale : str;
  tripped : bool
}.

(** Modelled from the spec: the result of the guardrail pipeline. *)
Inductive PipelineResult :=
| Pass
| Blocked (rationale : str) (guardrailName : string).

(** Modelled from the spec: the session and the outcome of a turn.  An
    exception that ends the turn is the error outcome. *)
Record Session := {
  activeAgent : agent_id;
  context : AirlineAgentContext;
  history : list str
}.

Inductive TurnOutcome :=
| Replied (text : str)
| Refused (rationale : str)
| Error (e : exn).

Section Turn.
Variable TResponseInputItem : Type.
Variable Runner_run : forall a : agent_id, guardrail_input TResponseInputItem -> M (output_type a).

(** Modelled from the spec: how the pipeline reads a guardrail of
    [main.py].  The entry of [input_guardrails] names the guardrail
    function; of its output the pipeline takes the trip decision and, as
    rationale, the classifier's reasoning. *)
Definition run_guardrail (g : string) (agent : agent_id)
  (input : guardrail_input TResponseInputItem) : option (M guardrail_verdict) :=
  if String.eqb g "relevance_guardrail" then
    Some (r <- relevance_guardrail TResponseInputItem Runner_run agent input ;;
          ret {| rationale := relevance_reasoning (output_info r);
                 tripped := tripwire_triggered r |})
  else if String.eqb g "jailbreak_guardrail" then
    Some (j <- jailbreak_guardrail TResponseInputItem Runner_run agent input ;;
          ret {| rationale := jailbreak_reasoning (output_info j);
                 tripped := tripwire_triggered j |})
  else None.

(** Modelled from the spec: the pipeline runs every guardrail attached to
    the active agent on the raw input, in declaration order. *)
Fixpoint run_guardrails (gs : list string) (agent : agent_id)
  (input : guardrail_input TResponseInputItem)
  : M (list (string * guardrail_verdict)) :=
  match gs with
  | [] => ret []
  | g :: rest =>
    match run_guardrail g agent input with
    | Some m =>
      v <- m ;;
      vs <- run_guardrails rest agent input ;;
      ret ((g, v) :: vs)
    | None => run_guardrails rest agent input
    end
  end.

(** Modelled from the spec: if any guardrail tripped the pipeline is
    blocked with the rationale of the first one in declaration order. *)
Definition first_tripped (vs : list (string * guardrail_verdict)) : PipelineResult :=
  match find (fun gv => tripped (snd gv)) vs with
  | Some (g, v) => Blocked (rationale v) g
  | None => Pass
  end.

(** Modelled from the spec: the guardrail pipeline of the active agent. *)
Definition evaluate (active : agent_id)
  (input : guardrail_input TResponseInputItem) : M PipelineResult :=
  vs <- run_guardrails (input_guardrails (agents active)) active input ;;
  ret (first_tripped vs).

(** The rest of a turn once the pipeline has passed, driven by the
    decisions of the model. *)
Variable orchestrate :
  Session -> guardrail_input TResponseInputItem -> TurnOutcome * Session.

(** Modelled from the spec: a turn runs the pipeline for the active agent
    first.  Blocked, it is refused at once with the guardrail's
    rationale: no reply, no tool, the same active agent and history.  The
    context is the shared object, so the session holds it as the pipeline
    left it. *)
Definition runTurn (s : Session) (input : guardrail_input TResponseInputItem)
  : TurnOutcome * Session :=
  match evaluate (activeAgent s) input (context s) with
  | (Return (Blocked rationale _), ctx') =>
    (Refused rationale,
     {| activeAgent := activeAgent s; context := ctx'; history := history s |})
  | (Return Pass, ctx') =>
    orchestrate
      {| activeAgent := activeAgent s; context := ctx'; history := history s |}
      input
  | (Raise e, ctx') =>
    (Error e,
     {| activeAgent := activeAgent s; context := ctx'; history := history s |})
  end.
End Turn.

(** ** INSTRUCTIONS *)

(** [x or y] where [x] is [str | None] and [y] a string: [x] if it is
    truthy, [y] otherwise. *)
Definition or_ (x : option str) (y : str) : str :=
  match x with
  | Some s => if str_truthy s then s else y
  | None => y
  end.

(** The line break written [\n] in the source literals. *)
Definition nl : str := [10].

Section Instructions.
(** The prompt prefix is imported from the framework. *)
Variable RECOMMENDED_PROMPT_PREFIX : str.

Definition seat_booking_instructions (agent : agent_id) : M str :=
  ctx_confirmation <- read confirmation_number ;;
  let confirmation := or_ ctx_confirmation (py "[desconhecido]") in
  ret (RECOMMENDED_PROMPT_PREFIX ++ nl
       ++ py "Você é um agente de alteração de assento. Se estiver conversando com o cliente, provavelmente foi transferido do agente de triagem." ++ nl
       ++ py "Siga a rotina abaixo para ajudar o cliente." ++ nl
       ++ py "1. O número de confirmação do cliente é " ++ confirmation
       ++ py ".Se não tiver essa informação, solicite ao cliente. Se tiver, confirme se é esse mesmo número." ++ nl
       ++ py "2. Pergunte ao cliente qual assento ele deseja. Você também pode usar a ferramenta display_seat_map para mostrar um mapa interativo para seleção." ++ nl
       ++ py "3. Use a ferramenta update_seat para atualizar o assento no voo." ++ nl
       ++ py "Se o cliente fizer uma pergunta fora desse fluxo, transfira de volta para o agente de triagem.").

Definition flight_status_instructions (agent : agent_id) : M str :=
  ctx_confirmation <- read confirmation_number ;;
  let confirmation := or_ ctx_confirmation (py "[desconhecido]") in
  ctx_flight <- read flight_number ;;
  let flight := or_ ctx_flight (py "[desconhecido]") in
  ret (RECOMMENDED_PROMPT_PREFIX ++ nl
       ++ py "Você é um agente de status de voo. Siga a rotina abaixo para ajudar o cliente:" ++ nl
       ++ py "1. O número de confirmação do cliente é " ++ confirmation
       ++ py " e o número do voo é " ++ flight ++ py "." ++ nl
       ++ py "   Se faltar alguma dessas informações, solicite ao cliente. Se tiver ambas, confirme com ele se os dados estão corretos." ++ nl
       ++ py "2. Use a ferramenta flight_status_tool para informar o status do voo." ++ nl
       ++ py "Se o cliente fizer perguntas que não sejam sobre status, transfira de volta para o agente de triagem.").

Definition cancellation_instructions (agent : agent_id) : M str :=
  ctx_confirmation <- read confirmation_number ;;
  let confirmation := or_ ctx_confirmation (py "[desconhecido]") in
  ctx_flight <- read flight_number ;;
  let flight := or_ ctx_flight (py "[desconhecido]") in
  ret (RECOMMENDED_PROMPT_PREFIX ++ nl
       ++ py "Você é um agente de cancelamento. Siga a rotina abaixo para ajudar o cliente:" ++ nl
       ++ py "1. O número de confirmação do cliente é " ++ confirmation
       ++ py " e o número do voo é " ++ flight ++ py "." ++ nl
       ++ py "   Se faltar alguma dessas informações, peça ao cliente. Se já possuir ambas, confirme com ele." ++ nl
       ++ py "2. Se o cliente confirmar, use a ferramenta cancel_flight para cancelar o voo." ++ nl
       ++ py "Se o cliente perguntar qualquer outra coisa, transfira de volta para o agente de triagem.").
End Instructions.

(** The [on_handoff] callback an element of a [handoffs] list carries. *)
Definition entry_hook (e : handoff_entry) : option (M unit) :=
  match e with
  | to_agent _ => None
  | handoff _ f => Some f
  end.

(** ** Expected results

    The texts and contexts the properties below are stated with. *)

(** What the two assignments of [update_seat] make of a context. *)
Definition seat_assigned (ctx : AirlineAgentContext) (confirmation new_seat : str)
  : AirlineAgentContext :=
  {| passenger_name := passenger_name ctx;
     confirmation_number := Some confirmation;
     seat_number := Some new_seat;
     flight_number := flight_number ctx;
     account_number := account_number ctx |}.

Definition update_seat_message (confirmation new_seat : str) : str :=
  py "Assento alterado para " ++ new_seat
  ++ py " para a reserva de confirmação " ++ confirmation.

(** A context that holds a seat but no flight number. *)
Definition ctx_no_flight : AirlineAgentContext :=
  {| passenger_name := Some (py "Andre Chaves");
     confirmation_number := Some (py "ABC123");
     seat_number := Some (py "12A");
     flight_number := None;
     account_number := Some (py "98765432") |}.

Definition flight_answer (fn : str) : str :=
  py "O número do seu voo é: " ++ fn ++ py ".".

(** The keyword table of [faq_lookup_tool], category by category. *)
Definition trigger_keywords : list str :=
  [py "bag"; py "baggage"; py "mala"; py "bagagem";
   py "seats"; py "plane"; py "assento"; py "avião";
   py "wifi"; py "wi-fi";
   py "flight"; py "voo"; py "vôo"; py "número do voo"].

Definition mentions_keyword (q : str) : bool :=
  existsb (fun k => contains k q) trigger_keywords.

(** Stands for the case table beyond Latin-1 where the question is plain
    ASCII, so that the table is never consulted. *)
Definition table_unused : str -> str := fun s => s.

Definition cancel_message (fn : str) : str :=
  py "O voo " ++ fn ++ py " foi cancelado com sucesso.".

(** The value a hook leaves in a field: the default if the field was
    [None], the field's own value otherwise. *)
Definition backfilled (field : option str) (default : str) : option str :=
  match field with
  | None => Some default
  | Some _ => field
  end.

Definition after_handoff (ctx : AirlineAgentContext) : AirlineAgentContext :=
  {| passenger_name := passenger_name ctx;
     confirmation_number := backfilled (confirmation_number ctx) (py "ABC123");
     seat_number := seat_number ctx;
     flight_number := backfilled (flight_number ctx) (py "FLT-456");
     account_number := account_number ctx |}.

Definition status_message (fn : str) : str :=
  py "O voo " ++ fn ++ py " está no horário previsto e partirá no portão A10.".

(** A run that judges every message off-topic and safe. *)
Definition off_topic_run (a : agent_id) (_ : guardrail_input Empty_set)
  : M (output_type a) :=
  match a return M (output_type a) with
  | guardrail_agent =>
    ret {| relevance_reasoning := py "not about air travel";
           is_relevant := false |}
  | jailbreak_guardrail_agent =>
    ret {| jailbreak_reasoning := py "no attempt to override instructions";
           is_safe := true |}
  | _ => ret []
  end.

(** The three answers of [baggage_tool]. *)
Definition fee_text : str := py "A taxa para mala acima do peso é de R$350.".

Definition allowance_text : str :=
  py "Uma bagagem de mão e uma despachada (até 23 kg) estão incluídas.".

Definition more_details_text : str :=
  py "Por favor, forneça mais detalhes sobre sua dúvida de bagagem.".

Definition fee_keywords (q : str) : bool :=
  contains (py "taxa") q || contains (py "fee") q.

Definition allowance_keywords (q : str) : bool :=
  contains (py "franquia") q || contains (py "allowance") q.

(** The four specialised agents. *)
Definition specialised_agents : list agent_id :=
  [seat_booking_agent; flight_status_agent; cancellation_agent; faq_agent].

(** What the instructions show for a value they do not have. *)
Definition unknown : str := py "[desconhecido]".

(** A run that raises instead of returning a verdict. *)
Definition failing_run (a : agent_id) (_ : guardrail_input Empty_set)
  : M (output_type a) :=
  fun c => (Raise (AssertionError (py "model unavailable")), c).

(** * Properties *)

(** ** The mutating seat tool *)

(** Whatever the flight number, the context [update_seat] leaves behind
    carries both assignments; only the outcome depends on the assertion. *)
Lemma update_seat_run (ctx : AirlineAgentContext) (confirmation new_seat : str) :
  update_seat confirmation new_seat ctx =
  (match flight_number ctx with
   | Some _ => Return (update_seat_message confirmation new_seat)
   | None => Raise (AssertionError flight_required)
   end,
   seat_assigned ctx confirmation new_seat).
Proof.
  unfold update_seat, bind, set_confirmation_number, set_seat_number, read,
    assert_, ret, seat_assigned, update_seat_message.
  cbn [flight_number].
  destruct (flight_number ctx); reflexivity.
Qed.

(** C1 (the code departs from the claim).  With no flight number in the
    context, [update_seat] does raise its assertion error, but the two
    assignments precede the assertion: the context it leaves behind has
    [confirmation_number] and [seat_number] overwritten with the
    arguments. *)
Theorem update_seat_raises_after_assigning
  (ctx : AirlineAgentContext) (confirmation new_seat : str) :
  flight_number ctx = None ->
  update_seat confirmation new_seat ctx =
    (Raise (AssertionError flight_required),
     seat_assigned ctx confirmation new_seat)
  /\ seat_number (snd (update_seat confirmation new_seat ctx)) = Some new_seat
  /\ confirmation_number (snd (update_seat confirmation new_seat ctx))
     = Some confirmation.
Proof.
  intros Hnone. rewrite update_seat_run, Hnone. repeat split.
Qed.

Lemma update_seat_raises_after_assigning_witness :
  flight_number ctx_no_flight = None
  /\ fst (update_seat (py "ABC123") (py "14C") ctx_no_flight)
     = Raise (AssertionError flight_required)
  /\ seat_number ctx_no_flight = Some (py "12A")
  /\ seat_number (snd (update_seat (py "ABC123") (py "14C") ctx_no_flight))
     = Some (py "14C").
Proof.
  assert (H : flight_number ctx_no_flight = None) by reflexivity.
  destruct (update_seat_raises_after_assigning ctx_no_flight
              (py "ABC123") (py "14C") H) as [Hrun [Hseat _]].
  split; [exact H|].
  split; [rewrite Hrun; reflexivity|].
  split; [reflexivity | exact Hseat].
Defined.

(** C3.  With a flight number in the context, [update_seat] returns its
    message and leaves [confirmation_number] and [seat_number] equal to
    the arguments; [passenger_name], [flight_number] and [account_number]
    keep their values. *)
Theorem update_seat_sets_seat_and_confirmation
  (ctx : AirlineAgentContext) (confirmation new_seat : str) :
  flight_number ctx <> None ->
  exists ctx',
    update_seat confirmation new_seat ctx
      = (Return (update_seat_message confirmation new_seat), ctx')
    /\ confirmation_number ctx' = Some confirmation
    /\ seat_number ctx' = Some new_seat
    /\ passenger_name ctx' = passenger_name ctx
    /\ flight_number ctx' = flight_number ctx
    /\ account_number ctx' = account_number ctx.
Proof.
  intros Hset. exists (seat_assigned ctx confirmation new_seat).
  rewrite update_seat_run.
  destruct (flight_number ctx) as [fn|] eqn:Hfn; [|congruence].
  repeat split; cbn; auto.
Qed.

Lemma update_seat_sets_seat_and_confirmation_witness :
  exists ctx',
    update_seat (py "ABC123") (py "14C") create_initial_context
      = (Return (update_seat_message (py "ABC123") (py "14C")), ctx')
    /\ confirmation_number ctx' = Some (py "ABC123")
    /\ seat_number ctx' = Some (py "14C")
    /\ passenger_name ctx' = passenger_name create_initial_context
    /\ flight_number ctx' = flight_number create_initial_context
    /\ account_number ctx' = account_number create_initial_context.
Proof.
  apply (update_seat_sets_seat_and_confirmation create_initial_context
           (py "ABC123") (py "14C")).
  cbn. discriminate.
Defined.

(** ** The FAQ lookup tool *)

Lemma mentions_keyword_split (q : str) :
  mentions_keyword q =
  baggage_keywords q || seating_keywords q || wifi_keywords q
  || flight_keywords q.
Proof.
  unfold mentions_keyword, trigger_keywords, baggage_keywords,
    seating_keywords, wifi_keywords, flight_keywords.
  cbn [existsb].
  rewrite orb_false_r, !orb_assoc. reflexivity.
Qed.

Section FaqFacts.
Variable unicode_lower : str -> str.

Let faq := faq_lookup_tool unicode_lower.
Let low := lower unicode_lower.

(** The tool never assigns to the context. *)
Lemma faq_keeps_context (question : str) (ctx : AirlineAgentContext) :
  snd (faq question ctx) = ctx.
Proof.
  unfold faq, faq_lookup_tool.
  destruct (baggage_keywords _); [reflexivity|].
  destruct (seating_keywords _); [reflexivity|].
  destruct (wifi_keywords _); [reflexivity|].
  destruct (flight_keywords _); [|reflexivity].
  unfold bind, read. destruct (truthy _); reflexivity.
Qed.

Lemma faq_baggage (question : str) (ctx : AirlineAgentContext) :
  baggage_keywords (low question) = true ->
  faq question ctx = (Return baggage_text, ctx).
Proof.
  unfold faq, low, faq_lookup_tool. intros ->. reflexivity.
Qed.

(** A question that reaches the flight-number branch. *)
Lemma faq_flight (question : str) (ctx : AirlineAgentContext) :
  baggage_keywords (low question) = false ->
  seating_keywords (low question) = false ->
  wifi_keywords (low question) = false ->
  flight_keywords (low question) = true ->
  faq question ctx =
  (Return (match flight_number ctx with
           | Some (c :: fn) => flight_answer (c :: fn)
           | _ => flight_not_found_text
           end), ctx).
Proof.
  unfold faq, low, faq_lookup_tool. intros -> -> -> ->.
  unfold bind, read, truthy, ret, flight_answer.
  destruct (flight_number ctx) as [[|c fn]|] eqn:Hfn;
    cbv beta iota delta [str_truthy]; rewrite ?Hfn; reflexivity.
Qed.

Lemma faq_fallback (question : str) (ctx : AirlineAgentContext) :
  mentions_keyword (low question) = false ->
  faq question ctx = (Return fallback_text, ctx).
Proof.
  rewrite mentions_keyword_split.
  intros H.
  apply orb_false_elim in H. destruct H as [H Hf].
  apply orb_false_elim in H. destruct H as [H Hw].
  apply orb_false_elim in H. destruct H as [Hb Hs].
  unfold faq, low, faq_lookup_tool in *.
  rewrite Hb, Hs, Hw, Hf. reflexivity.
Qed.

(** The answer depends on the context through [flight_number] only. *)
Lemma faq_reads_flight_number_only
  (question : str) (ctx1 ctx2 : AirlineAgentContext) :
  flight_number ctx1 = flight_number ctx2 ->
  fst (faq question ctx1) = fst (faq question ctx2).
Proof.
  intros Heq. unfold faq, faq_lookup_tool.
  destruct (baggage_keywords _); [reflexivity|].
  destruct (seating_keywords _); [reflexivity|].
  destruct (wifi_keywords _); [reflexivity|].
  destruct (flight_keywords _); [|reflexivity].
  unfold bind, read, ret. rewrite Heq.
  destruct (truthy _); cbn [fst]; rewrite ?Heq; reflexivity.
Qed.

(** Lowering is decided by the Latin-1 map on the two questions of the
    claim, whatever the table beyond Latin-1 holds. *)
Lemma low_luggage :
  low (py "How much luggage can I bring?") = py "how much luggage can i bring?".
Proof. vm_compute. reflexivity. Qed.

Lemma low_flight_number :
  low (py "What's my flight number?") = py "what's my flight number?".
Proof. vm_compute. reflexivity. Qed.

Lemma faq_luggage (ctx : AirlineAgentContext) :
  faq (py "How much luggage can I bring?") ctx = (Return fallback_text, ctx).
Proof.
  apply faq_fallback. rewrite low_luggage. vm_compute. reflexivity.
Qed.

Lemma faq_whats_my_flight_number (ctx : AirlineAgentContext) :
  faq (py "What's my flight number?") ctx =
  (Return (match flight_number ctx with
           | Some (c :: fn) => flight_answer (c :: fn)
           | _ => flight_not_found_text
           end), ctx).
Proof.
  apply faq_flight; rewrite low_flight_number; vm_compute; reflexivity.
Qed.
End FaqFacts.

Lemma fallback_is_not_baggage_text : fallback_text <> baggage_text.
Proof. vm_compute. discriminate. Qed.

(** C2, as the claim words it, fails: the lowered question
    "how much luggage can i bring?" contains none of the trigger
    keywords ("luggage" holds no "bag"), so the tool answers with the
    fallback text, which is not the baggage-allowance text. *)
Lemma faq_luggage_counterexample :
  faq_lookup_tool table_unused (py "How much luggage can I bring?")
    create_initial_context
  = (Return fallback_text, create_initial_context)
  /\ fallback_text <> baggage_text.
Proof.
  split.
  - apply faq_luggage.
  - exact fallback_is_not_baggage_text.
Qed.

(** C2, amended.  For the fixed keyword table the answer is a function of
    the question and of [flight_number] alone, and the context is left as
    it was.  A question whose lowered text contains "bag", "baggage",
    "mala" or "bagagem" gets the baggage-allowance text;
    "How much luggage can I bring?" contains no trigger keyword and gets
    the fallback text; "What's my flight number?" gets a text containing
    FLT-456 when [flight_number] is "FLT-456" and the not-found text when
    it is [None]; every question whose lowered text contains no trigger
    keyword gets the fallback text. *)
Theorem faq_lookup_tool_keyword_table (unicode_lower : str -> str) :
  (forall q ctx,
      baggage_keywords (lower unicode_lower q) = true ->
      faq_lookup_tool unicode_lower q ctx = (Return baggage_text, ctx))
  /\ (forall ctx,
      faq_lookup_tool unicode_lower (py "How much luggage can I bring?") ctx
      = (Return fallback_text, ctx))
  /\ (forall ctx,
      flight_number ctx = Some (py "FLT-456") ->
      exists answer,
        faq_lookup_tool unicode_lower (py "What's my flight number?") ctx
        = (Return answer, ctx)
        /\ contains (py "FLT-456") answer = true)
  /\ (forall ctx,
      flight_number ctx = None ->
      faq_lookup_tool unicode_lower (py "What's my flight number?") ctx
      = (Return flight_not_found_text, ctx))
  /\ (forall q ctx,
      mentions_keyword (lower unicode_lower q) = false ->
      faq_lookup_tool unicode_lower q ctx = (Return fallback_text, ctx))
  /\ (forall q ctx1 ctx2,
      flight_number ctx1 = flight_number ctx2 ->
      fst (faq_lookup_tool unicode_lower q ctx1)
      = fst (faq_lookup_tool unicode_lower q ctx2)).
Proof.
  split; [|split; [|split; [|split; [|split]]]].
  - intros q ctx. apply faq_baggage.
  - intros ctx. apply faq_luggage.
  - intros ctx Hfn. exists (flight_answer (py "FLT-456")). split.
    + rewrite faq_whats_my_flight_number, Hfn. reflexivity.
    + vm_compute. reflexivity.
  - intros ctx Hfn. rewrite faq_whats_my_flight_number, Hfn. reflexivity.
  - intros q ctx. apply faq_fallback.
  - intros q ctx1 ctx2. apply faq_reads_flight_number_only.
Qed.

Lemma faq_lookup_tool_keyword_table_witness :
  faq_lookup_tool table_unused (py "How much baggage can I bring?")
    create_initial_context
  = (Return baggage_text, create_initial_context)
  /\ (exists answer,
        faq_lookup_tool table_unused (py "What's my flight number?")
          create_initial_context
        = (Return answer, create_initial_context)
        /\ contains (py "FLT-456") answer = true)
  /\ faq_lookup_tool table_unused (py "What's my flight number?") ctx_no_flight
     = (Return flight_not_found_text, ctx_no_flight)
  /\ faq_lookup_tool table_unused (py "Bom dia") ctx_no_flight
     = (Return fallback_text, ctx_no_flight)
  /\ fst (faq_lookup_tool table_unused (py "Qual o meu voo?")
            create_initial_context)
     = fst (faq_lookup_tool table_unused (py "Qual o meu voo?")
              (seat_assigned create_initial_context (py "XYZ789") (py "14C"))).
Proof.
  destruct (faq_lookup_tool_keyword_table table_unused)
    as [Hbag [_ [Hset [Hnone [Hfall Hdep]]]]].
  split; [apply Hbag; vm_compute; reflexivity|].
  split; [apply Hset; reflexivity|].
  split; [apply Hnone; reflexivity|].
  split; [apply Hfall; vm_compute; reflexivity|].
  apply Hdep. reflexivity.
Defined.

(** C10.  [faq_lookup_tool] is read-only on the context: whatever the
    question, the context after the call is the context before it, and
    the answer depends on the context through [flight_number] alone. *)
Theorem faq_lookup_tool_read_only
  (unicode_lower : str -> str) (question : str) (ctx : AirlineAgentContext) :
  snd (faq_lookup_tool unicode_lower question ctx) = ctx
  /\ (exists answer,
        fst (faq_lookup_tool unicode_lower question ctx) = Return answer)
  /\ (forall ctx',
        flight_number ctx' = flight_number ctx ->
        fst (faq_lookup_tool unicode_lower question ctx')
        = fst (faq_lookup_tool unicode_lower question ctx)).
Proof.
  split; [apply faq_keeps_context|]. split.
  - unfold faq_lookup_tool.
    destruct (baggage_keywords _); [eexists; reflexivity|].
    destruct (seating_keywords _); [eexists; reflexivity|].
    destruct (wifi_keywords _); [eexists; reflexivity|].
    destruct (flight_keywords _); [|eexists; reflexivity].
    unfold bind, read. destruct (truthy _); eexists; reflexivity.
  - intros ctx'. apply faq_reads_flight_number_only.
Qed.

Lemma faq_lookup_tool_read_only_witness :
  snd (faq_lookup_tool table_unused (py "Qual o meu voo?") create_initial_context)
  = create_initial_context
  /\ fst (faq_lookup_tool table_unused (py "Qual o meu voo?")
            (seat_assigned create_initial_context (py "XYZ789") (py "14C")))
     = fst (faq_lookup_tool table_unused (py "Qual o meu voo?")
              create_initial_context).
Proof.
  destruct (faq_lookup_tool_read_only table_unused (py "Qual o meu voo?")
              create_initial_context) as [Hkeep [_ Hdep]].
  split; [exact Hkeep|]. apply Hdep. reflexivity.
Defined.

(** ** The cancellation tool *)

(** C4.  Without a flight number [cancel_flight] raises its assertion
    error; with one it returns the confirmation text for that flight.
    In both cases the context, [flight_number] included, is left exactly
    as it was. *)
Theorem cancel_flight_requires_flight_number (ctx : AirlineAgentContext) :
  (flight_number ctx = None ->
   cancel_flight ctx = (Raise (AssertionError flight_required), ctx))
  /\ (forall fn,
       flight_number ctx = Some fn ->
       cancel_flight ctx = (Return (cancel_message fn), ctx)).
Proof.
  unfold cancel_flight, bind, read, assert_, ret, cancel_message.
  split.
  - intros ->. reflexivity.
  - intros fn ->. reflexivity.
Qed.

Lemma cancel_flight_requires_flight_number_witness :
  cancel_flight ctx_no_flight
  = (Raise (AssertionError flight_required), ctx_no_flight)
  /\ cancel_flight create_initial_context
     = (Return (cancel_message (py "FLT-456")), create_initial_context).
Proof.
  split.
  - apply (proj1 (cancel_flight_requires_flight_number ctx_no_flight)).
    reflexivity.
  - apply (proj2 (cancel_flight_requires_flight_number create_initial_context)).
    reflexivity.
Defined.

(** ** The handoff hooks *)

Lemma on_seat_booking_handoff_run (ctx : AirlineAgentContext) :
  on_seat_booking_handoff ctx = (Return tt, after_handoff ctx).
Proof.
  destruct ctx as [pn cn sn fn an].
  destruct fn, cn; reflexivity.
Qed.

Lemma on_cancellation_handoff_run (ctx : AirlineAgentContext) :
  on_cancellation_handoff ctx = (Return tt, after_handoff ctx).
Proof.
  destruct ctx as [pn cn sn fn an].
  destruct fn, cn; reflexivity.
Qed.

(** C5.  The hooks that triage attaches to its handoffs into the seat
    booking and the cancellation agent both return normally and leave the
    context with [flight_number] backfilled by "FLT-456" and
    [confirmation_number] by "ABC123" where these were [None], with set
    values and the other three fields as they were; afterwards neither of
    the two fields is [None]. *)
Theorem handoff_hooks_backfill_defaults (ctx : AirlineAgentContext) :
  find_handoff triage_agent seat_booking_agent
    = Some (handoff seat_booking_agent on_seat_booking_handoff)
  /\ find_handoff triage_agent cancellation_agent
     = Some (handoff cancellation_agent on_cancellation_handoff)
  /\ on_seat_booking_handoff ctx = (Return tt, after_handoff ctx)
  /\ on_cancellation_handoff ctx = (Return tt, after_handoff ctx)
  /\ flight_number (after_handoff ctx)
     = match flight_number ctx with
       | None => Some (py "FLT-456")
       | Some fn => Some fn
       end
  /\ confirmation_number (after_handoff ctx)
     = match confirmation_number ctx with
       | None => Some (py "ABC123")
       | Some cn => Some cn
       end
  /\ passenger_name (after_handoff ctx) = passenger_name ctx
  /\ seat_number (after_handoff ctx) = seat_number ctx
  /\ account_number (after_handoff ctx) = account_number ctx
  /\ flight_number (after_handoff ctx) <> None
  /\ confirmation_number (after_handoff ctx) <> None.
Proof.
  split; [reflexivity|]. split; [reflexivity|].
  split; [apply on_seat_booking_handoff_run|].
  split; [apply on_cancellation_handoff_run|].
  destruct ctx as [pn cn sn fn an]. unfold after_handoff, backfilled.
  cbn [passenger_name confirmation_number seat_number flight_number
       account_number].
  destruct fn, cn; repeat split; discriminate.
Qed.

(** ** The status tool *)

(** C7.  [flight_status_tool] returns the canned status text built from
    its argument: the same text for the same argument in whatever
    context it runs, and the context is left as it was. *)
Theorem flight_status_tool_pure
  (fn : str) (ctx1 ctx2 : AirlineAgentContext) :
  flight_status_tool fn ctx1 = (Return (status_message fn), ctx1)
  /\ fst (flight_status_tool fn ctx1) = fst (flight_status_tool fn ctx2)
  /\ snd (flight_status_tool fn ctx2) = ctx2.
Proof. repeat split. Qed.

(** ** The initial context *)

(** C9.  [create_initial_context] is a fixed record with all five fields
    set to the demo values; on it [update_seat] returns its message and
    [cancel_flight] its confirmation, so neither assertion fails at the
    start of a session. *)
Theorem create_initial_context_populated :
  passenger_name create_initial_context = Some (py "Andre Chaves")
  /\ confirmation_number create_initial_context = Some (py "ABC123")
  /\ seat_number create_initial_context = Some (py "12A")
  /\ flight_number create_initial_context = Some (py "FLT-456")
  /\ account_number create_initial_context = Some (py "98765432")
  /\ (forall confirmation new_seat,
        fst (update_seat confirmation new_seat create_initial_context)
        = Return (update_seat_message confirmation new_seat))
  /\ fst (cancel_flight create_initial_context)
     = Return (cancel_message (py "FLT-456")).
Proof.
  do 5 (split; [reflexivity|]). split.
  - intros confirmation new_seat. rewrite update_seat_run. reflexivity.
  - reflexivity.
Qed.

(** ** The guardrails *)

Section GuardrailFacts.
Variable TResponseInputItem : Type.
Variable Runner_run :
  forall a : agent_id, guardrail_input TResponseInputItem -> M (output_type a).

Let relevance := relevance_guardrail TResponseInputItem Runner_run.
Let jailbreak := jailbreak_guardrail TResponseInputItem Runner_run.

(** The guardrail functions add no write of their own: the context
    after the call is the one the run left, and an exception of the run
    passes through. *)
Lemma relevance_guardrail_run agent input ctx :
  relevance agent input ctx =
  match Runner_run guardrail_agent input ctx with
  | (Return final, ctx') =>
    (Return {| output_info := final;
               tripwire_triggered := negb (is_relevant final) |}, ctx')
  | (Raise e, ctx') => (Raise e, ctx')
  end.
Proof.
  unfold relevance, relevance_guardrail, bind, ret.
  destruct (Runner_run guardrail_agent input ctx) as [[final|e] ctx'];
    reflexivity.
Qed.

Lemma jailbreak_guardrail_run agent input ctx :
  jailbreak agent input ctx =
  match Runner_run jailbreak_guardrail_agent input ctx with
  | (Return final, ctx') =>
    (Return {| output_info := final;
               tripwire_triggered := negb (is_safe final) |}, ctx')
  | (Raise e, ctx') => (Raise e, ctx')
  end.
Proof.
  unfold jailbreak, jailbreak_guardrail, bind, ret.
  destruct (Runner_run jailbreak_guardrail_agent input ctx) as [[final|e] ctx'];
    reflexivity.
Qed.
End GuardrailFacts.

(** The classifier agents have neither tools nor handoffs, so a run of
    one of them has nothing to write to the context with. *)
Lemma run_without_capabilities (a : agent_id) (c c' : AirlineAgentContext) :
  tools (agents a) = [] ->
  handoffs (agents a) = [] ->
  run_may_turn a c c' -> c' = c.
Proof.
  intros Htools Hhand Hrun.
  destruct Hrun as [a c | a tool c c1 c2 Hin _ | a b c c1 c2 Hin _].
  - reflexivity.
  - rewrite Htools in Hin. destruct Hin.
  - unfold handoff_targets in Hin. rewrite Hhand in Hin. destruct Hin.
Qed.

(** An agent with a tool is not so bound: a run of the seat-booking
    agent may leave the context with another seat. *)
Lemma run_with_tool_may_write
  (c : AirlineAgentContext) (confirmation new_seat : str) :
  run_may_turn seat_booking_agent c (seat_assigned c confirmation new_seat).
Proof.
  apply (run_calls_tool seat_booking_agent "update_seat"%string c
           (seat_assigned c confirmation new_seat)).
  - cbv. tauto.
  - apply run_writes_nothing.
Qed.

Lemma routing_agents_guarded (a : agent_id) :
  In a routing_agents -> input_guardrails (agents a) = both_guardrails.
Proof.
  intros Hin.
  destruct a; try reflexivity; exfalso; cbv in Hin;
    repeat (destruct Hin as [Hin|Hin]; [discriminate Hin|]); exact Hin.
Qed.

Lemma session_eta (s : Session) :
  {| activeAgent := activeAgent s; context := context s; history := history s |}
  = s.
Proof. destruct s; reflexivity. Qed.

Section TurnFacts.
Variable TResponseInputItem : Type.
Variable Runner_run :
  forall a : agent_id, guardrail_input TResponseInputItem -> M (output_type a).
Hypothesis run_contract :
  forall a input c, run_may_turn a c (snd (Runner_run a input c)).

Lemma relevance_run_keeps_context input ctx :
  snd (Runner_run guardrail_agent input ctx) = ctx.
Proof.
  apply (run_without_capabilities guardrail_agent);
    [reflexivity | reflexivity | apply run_contract].
Qed.

Lemma jailbreak_run_keeps_context input ctx :
  snd (Runner_run jailbreak_guardrail_agent input ctx) = ctx.
Proof.
  apply (run_without_capabilities jailbreak_guardrail_agent);
    [reflexivity | reflexivity | apply run_contract].
Qed.

Lemma relevance_guardrail_verdict agent input ctx rv :
  fst (Runner_run guardrail_agent input ctx) = Return rv ->
  relevance_guardrail TResponseInputItem Runner_run agent input ctx
  = (Return {| output_info := rv;
               tripwire_triggered := negb (is_relevant rv) |}, ctx).
Proof.
  intros Hrv. rewrite relevance_guardrail_run.
  pose proof (relevance_run_keeps_context input ctx) as Hkeep.
  destruct (Runner_run guardrail_agent input ctx) as [o c'].
  cbn [fst snd] in Hrv, Hkeep. subst o c'. reflexivity.
Qed.

Lemma jailbreak_guardrail_verdict agent input ctx jv :
  fst (Runner_run jailbreak_guardrail_agent input ctx) = Return jv ->
  jailbreak_guardrail TResponseInputItem Runner_run agent input ctx
  = (Return {| output_info := jv;
               tripwire_triggered := negb (is_safe jv) |}, ctx).
Proof.
  intros Hjv. rewrite jailbreak_guardrail_run.
  pose proof (jailbreak_run_keeps_context input ctx) as Hkeep.
  destruct (Runner_run jailbreak_guardrail_agent input ctx) as [o c'].
  cbn [fst snd] in Hjv, Hkeep. subst o c'. reflexivity.
Qed.

(** The pipeline of an agent that carries both guardrails. *)
Lemma evaluate_both agent input ctx rv jv :
  input_guardrails (agents agent) = both_guardrails ->
  fst (Runner_run guardrail_agent input ctx) = Return rv ->
  fst (Runner_run jailbreak_guardrail_agent input ctx) = Return jv ->
  evaluate TResponseInputItem Runner_run agent input ctx
  = (Return
       (if negb (is_relevant rv)
        then Blocked (relevance_reasoning rv) "relevance_guardrail"
        else if negb (is_safe jv)
             then Blocked (jailbreak_reasoning jv) "jailbreak_guardrail"
             else Pass),
     ctx).
Proof.
  intros Hg Hrv Hjv. unfold evaluate. rewrite Hg.
  unfold both_guardrails, run_guardrails, run_guardrail.
  cbn [String.eqb Ascii.eqb Bool.eqb].
  unfold bind.
  rewrite (relevance_guardrail_verdict agent input ctx rv Hrv).
  unfold ret at 1. cbv beta iota.
  rewrite (jailbreak_guardrail_verdict agent input ctx jv Hjv).
  unfold ret, first_tripped. cbn [find snd tripped tripwire_triggered
    output_info rationale].
  destruct (is_relevant rv), (is_safe jv); reflexivity.
Qed.
End TurnFacts.



(** ** The routing graph *)

Lemma agent_eqb_eq (a b : agent_id) : agent_eqb a b = true <-> a = b.
Proof.
  split.
  - destruct a, b; cbn; intros H; try reflexivity; discriminate H.
  - intros ->. destruct b; reflexivity.
Qed.

(** A handoff that [follow] accepts goes along an edge of the graph. *)
Lemma find_handoff_target (a tgt : agent_id) (e : handoff_entry) :
  find_handoff a tgt = Some e -> In tgt (handoff_targets a).
Proof.
  unfold find_handoff, handoff_targets. intros H.
  apply find_some in H. destruct H as [Hin Heq].
  apply agent_eqb_eq in Heq. subst tgt.
  apply in_map. exact Hin.
Qed.

Lemma find_handoff_complete (a tgt : agent_id) :
  In tgt (handoff_targets a) -> exists e, find_handoff a tgt = Some e.
Proof.
  unfold find_handoff, handoff_targets. intros H.
  apply in_map_iff in H. destruct H as [e [Htgt Hin]].
  destruct (find _ _) as [e'|] eqn:Hfind; [exists e'; reflexivity|].
  exfalso.
  pose proof (find_none _ _ Hfind e Hin) as Hno. cbv beta in Hno.
  rewrite Htgt in Hno.
  assert (Hyes : agent_eqb tgt tgt = true) by (apply agent_eqb_eq; reflexivity).
  congruence.
Qed.

(** No edge leaves the five routing agents. *)
Lemma handoff_targets_closed (a b : agent_id) :
  In a routing_agents -> In b (handoff_targets a) -> In b routing_agents.
Proof.
  intros Ha Hb.
  destruct a; cbv in Ha, Hb;
    repeat (destruct Ha as [Ha|Ha]; try discriminate Ha);
    try contradiction;
    repeat (destruct Hb as [Hb|Hb]; [subst b; cbv; tauto|]);
    contradiction.
Qed.

Lemma follow_closed (decisions : list agent_id) :
  forall a b,
    In a routing_agents -> follow a decisions = Some b -> In b routing_agents.
Proof.
  induction decisions as [|tgt rest IH]; intros a b Ha Hrun.
  - cbn in Hrun. injection Hrun as <-. exact Ha.
  - cbn [follow] in Hrun.
    destruct (find_handoff a tgt) as [e|] eqn:Hfind; [|discriminate].
    apply (IH tgt b); [|exact Hrun].
    apply (handoff_targets_closed a); [exact Ha|].
    apply (find_handoff_target a tgt e Hfind).
Qed.

Lemma triage_in_routing : In triage_agent routing_agents.
Proof. cbv. tauto. Qed.

Lemma back_edge_to_triage (a : agent_id) :
  In a routing_agents -> a <> triage_agent ->
  In triage_agent (handoff_targets a).
Proof.
  intros Ha Hne.
  destruct a; cbv in Ha |- *; try tauto;
    repeat (destruct Ha as [Ha|Ha]; try discriminate Ha); contradiction.
Qed.

(** C6.  The agents that sequences of handoffs starting at triage can
    make active are exactly triage, seat booking, flight status,
    cancellation and FAQ; each of the four specialised ones lists triage
    among its handoff targets; hence the active agent never leaves that
    set and triage can be made active again from every agent of it. *)
Theorem routing_graph_rooted_at_triage :
  (forall a,
      In a routing_agents <->
      exists decisions, follow triage_agent decisions = Some a)
  /\ (forall a,
      In a routing_agents -> a <> triage_agent ->
      In triage_agent (handoff_targets a))
  /\ (forall decisions a,
      follow triage_agent decisions = Some a -> In a routing_agents)
  /\ (forall a,
      In a routing_agents ->
      exists decisions, follow a decisions = Some triage_agent).
Proof.
  split; [|split; [|split]].
  - intros a. split.
    + intros Ha. destruct a; cbv in Ha;
        try (repeat (destruct Ha as [Ha|Ha]; try discriminate Ha);
             contradiction).
      * exists [seat_booking_agent]. reflexivity.
      * exists [flight_status_agent]. reflexivity.
      * exists [cancellation_agent]. reflexivity.
      * exists [faq_agent]. reflexivity.
      * exists []. reflexivity.
    + intros [decisions Hrun].
      apply (follow_closed decisions triage_agent a triage_in_routing Hrun).
  - exact back_edge_to_triage.
  - intros decisions a Hrun.
    apply (follow_closed decisions triage_agent a triage_in_routing Hrun).
  - intros a Ha.
    destruct (agent_eqb a triage_agent) eqn:Heq.
    + apply agent_eqb_eq in Heq. subst a. exists []. reflexivity.
    + assert (Hne : a <> triage_agent).
      { intros ->. cbn in Heq. discriminate Heq. }
      destruct (find_handoff_complete a triage_agent
                  (back_edge_to_triage a Ha Hne)) as [e He].
      exists [triage_agent]. cbn [follow]. rewrite He. reflexivity.
Qed.

Lemma routing_graph_rooted_at_triage_witness :
  In cancellation_agent routing_agents
  /\ In triage_agent (handoff_targets cancellation_agent)
  /\ (exists decisions, follow cancellation_agent decisions = Some triage_agent)
  /\ follow triage_agent
       [seat_booking_agent; triage_agent; faq_agent; triage_agent;
        cancellation_agent]
     = Some cancellation_agent
  /\ ~ In guardrail_agent routing_agents.
Proof.
  destruct routing_graph_rooted_at_triage as [Hset [Hback [Hclosed Hroot]]].
  assert (Hrun : follow triage_agent
                   [seat_booking_agent; triage_agent; faq_agent; triage_agent;
                    cancellation_agent] = Some cancellation_agent)
    by reflexivity.
  assert (Hin : In cancellation_agent routing_agents)
    by exact (Hclosed _ _ Hrun).
  split; [exact Hin|].
  split; [apply (Hback _ Hin); discriminate|].
  split; [exact (Hroot _ Hin)|].
  split; [exact Hrun|].
  cbv. intros H.
  repeat (destruct H as [H|H]; [discriminate H|]). exact H.
Defined.

(** * Further properties *)

(** ** Substrings and lowering *)

Lemma startswith_spec (p s : str) :
  startswith p s = true <-> exists post, s = p ++ post.
Proof.
  revert s. induction p as [|a p IH]; intros s.
  - cbn. split; [intros _; exists s; reflexivity | reflexivity].
  - destruct s as [|b s]; cbn.
    + split; [discriminate | intros [post H]; discriminate H].
    + rewrite andb_true_iff, N.eqb_eq, IH. split.
      * intros [-> [post ->]]. exists post. reflexivity.
      * intros [post H]. injection H as -> ->. split; [reflexivity|].
        exists post. reflexivity.
Qed.

(** [p in s] holds exactly when [s] is some text, then [p], then some
    text. *)
Lemma contains_spec (p s : str) :
  contains p s = true <-> exists pre post, s = pre ++ p ++ post.
Proof.
  induction s as [|b s IH].
  - cbn [contains]. rewrite orb_false_r, startswith_spec. split.
    + intros [post H]. exists [], post. exact H.
    + intros [pre [post H]]. destruct pre as [|x pre]; [|discriminate H].
      exists post. exact H.
  - cbn [contains]. rewrite orb_true_iff, startswith_spec, IH. split.
    + intros [[post H] | [pre [post H]]].
      * exists [], post. exact H.
      * exists (b :: pre), post. rewrite H. reflexivity.
    + intros [pre [post H]]. destruct pre as [|x pre].
      * left. exists post. exact H.
      * right. injection H as _ H. exists pre, post. exact H.
Qed.

Lemma contains_length (p s : str) :
  contains p s = true -> (List.length p <= List.length s)%nat.
Proof.
  intros H. apply contains_spec in H. destruct H as [pre [post ->]].
  rewrite !length_app. lia.
Qed.

Lemma contains_trans (p q s : str) :
  contains p q = true -> contains q s = true -> contains p s = true.
Proof.
  intros Hpq Hqs.
  apply contains_spec in Hpq. destruct Hpq as [pre1 [post1 ->]].
  apply contains_spec in Hqs. destruct Hqs as [pre2 [post2 ->]].
  apply contains_spec. exists (pre2 ++ pre1), (post1 ++ post2).
  rewrite <- !app_assoc. reflexivity.
Qed.

Lemma contains_here (p post : str) : contains p (p ++ post) = true.
Proof. apply contains_spec. exists [], post. reflexivity. Qed.

Lemma contains_app_r (p pre s : str) :
  contains p s = true -> contains p (pre ++ s) = true.
Proof.
  intros H. apply contains_spec in H. destruct H as [pre' [post ->]].
  apply contains_spec. exists (pre ++ pre'), post.
  rewrite <- app_assoc. reflexivity.
Qed.

Lemma lower_latin1_stays_latin1 (c : codepoint) :
  (c <? 256) = true -> (lower_latin1 c <? 256) = true.
Proof.
  unfold lower_latin1. intros Hc. apply N.ltb_lt in Hc.
  destruct (_ || _) eqn:Hup; apply N.ltb_lt; [|exact Hc].
  apply orb_true_iff in Hup. destruct Hup as [H|H].
  - apply andb_true_iff in H. destruct H as [_ H]. apply N.leb_le in H. lia.
  - apply andb_true_iff in H. destruct H as [H _].
    apply andb_true_iff in H. destruct H as [_ H]. apply N.leb_le in H. lia.
Qed.

Lemma lower_latin1_idempotent (c : codepoint) :
  lower_latin1 (lower_latin1 c) = lower_latin1 c.
Proof.
  unfold lower_latin1.
  destruct ((65 <=? c) && (c <=? 90)
            || (192 <=? c) && (c <=? 222) && negb (c =? 215)) eqn:Hup;
    [|rewrite Hup; reflexivity].
  assert (Hlow : (65 <=? c + 32) && (c + 32 <=? 90)
                 || (192 <=? c + 32) && (c + 32 <=? 222)
                    && negb (c + 32 =? 215) = false).
  { apply orb_true_iff in Hup. destruct Hup as [H|H].
    - apply andb_true_iff in H. destruct H as [H1 H2].
      apply N.leb_le in H1, H2.
      apply orb_false_iff. split.
      + apply andb_false_iff. right. apply N.leb_gt. lia.
      + apply andb_false_iff. left. apply andb_false_iff. left.
        apply N.leb_gt. lia.
    - apply andb_true_iff in H. destruct H as [H _].
      apply andb_true_iff in H. destruct H as [H1 H2].
      apply N.leb_le in H1, H2.
      apply orb_false_iff. split.
      + apply andb_false_iff. right. apply N.leb_gt. lia.
      + apply andb_false_iff. left. apply andb_false_iff. right.
        apply N.leb_gt. lia. }
  rewrite Hlow. reflexivity.
Qed.

Section LowerFacts.
Variable unicode_lower : str -> str.

Lemma lower_latin1_text (s : str) :
  is_latin1 s = true -> lower unicode_lower s = map lower_latin1 s.
Proof. unfold lower. intros ->. reflexivity. Qed.

Lemma lowered_is_latin1 (s : str) :
  is_latin1 s = true -> is_latin1 (map lower_latin1 s) = true.
Proof.
  unfold is_latin1. rewrite !forallb_forall. intros H c Hc.
  apply in_map_iff in Hc. destruct Hc as [c0 [<- Hc0]].
  apply lower_latin1_stays_latin1. apply H. exact Hc0.
Qed.

(** On Latin-1 text, lowering twice is lowering once, and lowering keeps
    the length. *)
Lemma lower_idempotent (s : str) :
  is_latin1 s = true ->
  lower unicode_lower (lower unicode_lower s) = lower unicode_lower s.
Proof.
  intros H. rewrite (lower_latin1_text s H).
  rewrite (lower_latin1_text _ (lowered_is_latin1 s H)).
  rewrite map_map. apply map_ext. apply lower_latin1_idempotent.
Qed.

Lemma lower_length (s : str) :
  is_latin1 s = true -> List.length (lower unicode_lower s) = List.length s.
Proof. intros H. rewrite (lower_latin1_text s H). apply length_map. Qed.
End LowerFacts.

(** ** More on the FAQ lookup tool *)

Lemma keywords_at_least_three :
  Forall (fun k => (3 <= List.length k)%nat) trigger_keywords.
Proof. repeat constructor. Qed.

(** Two answers that differ within their first sixteen code points. *)
Ltac text_clash H :=
  apply (f_equal (fun o => match o with
                           | Return t => firstn 16 t
                           | Raise _ => []
                           end)) in H;
  vm_compute in H; discriminate H.

(** Settle [result = Return text <-> conditions] and the like once both
    sides are decided; texts are compared by name, never by unfolding. *)
Ltac settle_answer :=
  match goal with
  | |- (@Return ?A ?a = Return ?b) <-> _ =>
    first
      [ constr_eq a b; split; [intros _; repeat split | reflexivity]
      | split;
        [ let H := fresh in intros H; text_clash H
        | let H := fresh in intros H; decompose [and] H; discriminate ] ]
  | |- (@Return ?A ?a = Return ?b \/ (exists x, _)) <-> _ =>
    first
      [ constr_eq a b; split;
        [intros _; repeat split | intros _; left; reflexivity]
      | match a with
        | flight_answer ?v =>
          split; [intros _; repeat split | intros _; right; exists v; reflexivity]
        end
      | split;
        [ let H := fresh in let x := fresh in
          intros [H | [x H]]; text_clash H
        | let H := fresh in intros H; decompose [and] H; discriminate ] ]
  end.

(** X1.  On questions made of Latin-1 code points the lookup does not
    look at letter case: two questions with the same lowering get the
    same outcome, and lowering a question beforehand changes nothing. *)
Theorem faq_lookup_tool_ignores_case
  (unicode_lower : str -> str) (q1 q2 : str) (ctx : AirlineAgentContext) :
  is_latin1 q1 = true ->
  is_latin1 q2 = true ->
  map lower_latin1 q1 = map lower_latin1 q2 ->
  faq_lookup_tool unicode_lower q1 ctx = faq_lookup_tool unicode_lower q2 ctx
  /\ faq_lookup_tool unicode_lower (lower unicode_lower q1) ctx
     = faq_lookup_tool unicode_lower q1 ctx.
Proof.
  intros H1 H2 Hsame. unfold faq_lookup_tool.
  rewrite (lower_idempotent unicode_lower q1 H1).
  rewrite (lower_latin1_text unicode_lower q1 H1).
  rewrite (lower_latin1_text unicode_lower q2 H2).
  rewrite Hsame. split; reflexivity.
Qed.

Lemma faq_lookup_tool_ignores_case_witness :
  faq_lookup_tool table_unused (py "TEM WI-FI A BORDO?") create_initial_context
  = faq_lookup_tool table_unused (py "tem wi-fi a bordo?") create_initial_context
  /\ fst (faq_lookup_tool table_unused (py "TEM WI-FI A BORDO?")
            create_initial_context)
     = Return wifi_text.
Proof.
  split.
  - apply (faq_lookup_tool_ignores_case table_unused
             (py "TEM WI-FI A BORDO?") (py "tem wi-fi a bordo?")
             create_initial_context); vm_compute; reflexivity.
  - vm_compute. reflexivity.
Defined.

(** X2.  A Latin-1 question of fewer than three code points, the empty
    question included, matches no keyword and gets the fallback text. *)
Theorem faq_lookup_tool_short_question
  (unicode_lower : str -> str) (q : str) (ctx : AirlineAgentContext) :
  is_latin1 q = true ->
  (List.length q < 3)%nat ->
  faq_lookup_tool unicode_lower q ctx = (Return fallback_text, ctx).
Proof.
  intros Hlat Hlen. apply faq_fallback.
  apply not_true_is_false. intros Hm.
  unfold mentions_keyword in Hm. apply existsb_exists in Hm.
  destruct Hm as [k [Hin Hk]].
  apply contains_length in Hk.
  rewrite (lower_length unicode_lower q Hlat) in Hk.
  pose proof keywords_at_least_three as Hmin.
  rewrite Forall_forall in Hmin. specialize (Hmin k Hin). lia.
Qed.

Lemma faq_lookup_tool_short_question_witness :
  faq_lookup_tool table_unused [] ctx_no_flight
  = (Return fallback_text, ctx_no_flight)
  /\ faq_lookup_tool table_unused (py "Oi") ctx_no_flight
     = (Return fallback_text, ctx_no_flight).
Proof.
  split.
  - apply (faq_lookup_tool_short_question table_unused [] ctx_no_flight);
      [reflexivity | cbn; lia].
  - apply (faq_lookup_tool_short_question table_unused (py "Oi") ctx_no_flight);
      [reflexivity | cbn; lia].
Defined.

(** X3.  Four of the trigger keywords never decide anything: "baggage"
    and "bagagem" contain "bag", "número do voo" contains "voo".  The
    baggage test is the test for "bag" or "mala", the flight test the
    test for "flight", "voo" or "vôo". *)
Theorem faq_redundant_keywords (q : str) :
  baggage_keywords q = contains (py "bag") q || contains (py "mala") q
  /\ flight_keywords q
     = contains (py "flight") q || contains (py "voo") q
       || contains (py "vôo") q.
Proof.
  unfold baggage_keywords, flight_keywords. split.
  - destruct (contains (py "bag") q) eqn:Hbag; [reflexivity|].
    assert (H1 : contains (py "baggage") q = false).
    { apply not_true_is_false. intros H.
      rewrite (contains_trans (py "bag") (py "baggage") q) in Hbag;
        [discriminate | reflexivity | exact H]. }
    assert (H2 : contains (py "bagagem") q = false).
    { apply not_true_is_false. intros H.
      rewrite (contains_trans (py "bag") (py "bagagem") q) in Hbag;
        [discriminate | reflexivity | exact H]. }
    rewrite H1, H2. cbn [orb]. rewrite orb_false_r. reflexivity.
  - destruct (contains (py "número do voo") q) eqn:Hnum;
      [|rewrite orb_false_r; reflexivity].
    rewrite (contains_trans (py "voo") (py "número do voo") q);
      [|reflexivity | exact Hnum].
    destruct (contains (py "flight") q), (contains (py "vôo") q); reflexivity.
Qed.

(** X4.  The answer tells which category matched, and the first matching
    category wins: the baggage text is returned exactly when a baggage
    keyword occurs, the seating text exactly when none does and a seating
    keyword occurs, the wifi text exactly when neither does and a wifi
    keyword occurs, a flight-number answer (the flight text or the
    not-found text) exactly when only a flight keyword occurs, and the
    fallback text exactly when no keyword occurs.  The tool never
    raises. *)
Theorem faq_answer_tells_category
  (unicode_lower : str -> str) (question : str) (ctx : AirlineAgentContext) :
  let q := lower unicode_lower question in
  let result := fst (faq_lookup_tool unicode_lower question ctx) in
  (exists answer, result = Return answer)
  /\ (result = Return baggage_text <-> baggage_keywords q = true)
  /\ (result = Return seating_text <->
      baggage_keywords q = false /\ seating_keywords q = true)
  /\ (result = Return wifi_text <->
      baggage_keywords q = false /\ seating_keywords q = false
      /\ wifi_keywords q = true)
  /\ ((result = Return flight_not_found_text
       \/ exists fn, result = Return (flight_answer fn)) <->
      baggage_keywords q = false /\ seating_keywords q = false
      /\ wifi_keywords q = false /\ flight_keywords q = true)
  /\ (result = Return fallback_text <-> mentions_keyword q = false).
Proof.
  cbv zeta. rewrite mentions_keyword_split.
  destruct (baggage_keywords _) eqn:Hb;
    [|destruct (seating_keywords _) eqn:Hs;
      [|destruct (wifi_keywords _) eqn:Hw;
        [|destruct (flight_keywords _) eqn:Hf]]].
  5: rewrite (faq_fallback unicode_lower question ctx)
       by (rewrite mentions_keyword_split, Hb, Hs, Hw, Hf; reflexivity).
  4: rewrite (faq_flight unicode_lower question ctx Hb Hs Hw Hf);
     destruct (flight_number ctx) as [[|c fn]|].
  1-3: unfold faq_lookup_tool; rewrite Hb, ?Hs, ?Hw; unfold ret.
  all: cbn [fst orb].
  all: split; [eexists; reflexivity|].
  all: repeat match goal with |- _ /\ _ => split end.
  all: settle_answer.
Qed.

(** X5.  An empty string as flight number is not [None], but it is
    falsy.  The two assertions accept it ([cancel_flight] confirms the
    cancellation of a flight with no number, [update_seat] returns its
    message), the handoff hooks do not replace it by the default, and the
    lookup reports the flight number as not found. *)
Theorem empty_flight_number_is_accepted
  (unicode_lower : str -> str) (ctx : AirlineAgentContext)
  (confirmation new_seat : str) :
  flight_number ctx = Some [] ->
  cancel_flight ctx = (Return (cancel_message []), ctx)
  /\ fst (update_seat confirmation new_seat ctx)
     = Return (update_seat_message confirmation new_seat)
  /\ flight_number (snd (on_seat_booking_handoff ctx)) = Some []
  /\ flight_number (snd (on_cancellation_handoff ctx)) = Some []
  /\ faq_lookup_tool unicode_lower (py "What's my flight number?") ctx
     = (Return flight_not_found_text, ctx).
Proof.
  intros Hfn. split; [|split; [|split; [|split]]].
  - unfold cancel_flight, bind, read, assert_, ret, cancel_message.
    rewrite Hfn. reflexivity.
  - rewrite update_seat_run, Hfn. reflexivity.
  - rewrite on_seat_booking_handoff_run.
    cbn [snd after_handoff flight_number]. rewrite Hfn. reflexivity.
  - rewrite on_cancellation_handoff_run.
    cbn [snd after_handoff flight_number]. rewrite Hfn. reflexivity.
  - rewrite faq_whats_my_flight_number, Hfn. reflexivity.
Qed.

Lemma empty_flight_number_is_accepted_witness :
  cancel_flight (mkContext None None None (Some []) None)
  = (Return (cancel_message []), mkContext None None None (Some []) None)
  /\ faq_lookup_tool table_unused (py "What's my flight number?")
       (mkContext None None None (Some []) None)
     = (Return flight_not_found_text, mkContext None None None (Some []) None).
Proof.
  destruct (empty_flight_number_is_accepted table_unused
              (mkContext None None None (Some []) None) (py "ABC123")
              (py "14C") eq_refl) as [Hcancel [_ [_ [_ Hfaq]]]].
  split; [exact Hcancel | exact Hfaq].
Defined.

(** ** The baggage tool *)

Lemma baggage_tool_run
  (unicode_lower : str -> str) (query : str) (ctx : AirlineAgentContext) :
  baggage_tool unicode_lower query ctx =
  (Return (if fee_keywords (lower unicode_lower query) then fee_text
           else if allowance_keywords (lower unicode_lower query)
                then allowance_text
                else more_details_text), ctx).
Proof.
  unfold baggage_tool, fee_keywords, allowance_keywords, fee_text,
    allowance_text, more_details_text, ret.
  destruct (_ || _); [reflexivity|].
  destruct (_ || _); reflexivity.
Qed.

(** X6.  [baggage_tool] never raises and never touches the context; its
    answer is the fee text exactly when "taxa" or "fee" occurs in the
    lowered query, the allowance text exactly when neither does and
    "franquia" or "allowance" occurs, and the request for more details
    exactly when none of the four occurs: a query about both fee and
    allowance gets the fee only. *)
Theorem baggage_tool_fee_first
  (unicode_lower : str -> str) (query : str) (ctx : AirlineAgentContext) :
  let q := lower unicode_lower query in
  let result := fst (baggage_tool unicode_lower query ctx) in
  snd (baggage_tool unicode_lower query ctx) = ctx
  /\ (result = Return fee_text <-> fee_keywords q = true)
  /\ (result = Return allowance_text <->
      fee_keywords q = false /\ allowance_keywords q = true)
  /\ (result = Return more_details_text <->
      fee_keywords q = false /\ allowance_keywords q = false).
Proof.
  cbv zeta. rewrite baggage_tool_run.
  destruct (fee_keywords _); [|destruct (allowance_keywords _)].
  all: cbn [fst snd].
  all: split; [reflexivity|].
  all: repeat match goal with |- _ /\ _ => split end.
  all: settle_answer.
Qed.

(** ** Tools in sequence *)

Lemma seat_assigned_twice (ctx : AirlineAgentContext) (c1 s1 c2 s2 : str) :
  seat_assigned (seat_assigned ctx c1 s1) c2 s2 = seat_assigned ctx c2 s2.
Proof. reflexivity. Qed.

(** X7.  With a flight number in the context, of two seat updates in a
    row only the second shows: outcome and context are those of the
    second update alone.  In particular repeating an update changes
    nothing. *)
Theorem update_seat_last_write_wins
  (ctx : AirlineAgentContext) (c1 s1 c2 s2 : str) :
  flight_number ctx <> None ->
  bind (update_seat c1 s1) (fun _ => update_seat c2 s2) ctx
  = update_seat c2 s2 ctx.
Proof.
  intros Hset. unfold bind. rewrite (update_seat_run ctx c1 s1).
  destruct (flight_number ctx) as [fn|] eqn:Hfn; [|congruence].
  cbv beta iota. rewrite !update_seat_run, seat_assigned_twice.
  cbn [seat_assigned flight_number]. rewrite Hfn. reflexivity.
Qed.

Lemma update_seat_last_write_wins_witness :
  bind (update_seat (py "ABC123") (py "14C"))
       (fun _ => update_seat (py "ABC123") (py "2B")) create_initial_context
  = update_seat (py "ABC123") (py "2B") create_initial_context.
Proof.
  apply (update_seat_last_write_wins create_initial_context
           (py "ABC123") (py "14C") (py "ABC123") (py "2B")).
  cbn [create_initial_context flight_number]. discriminate.
Defined.

(** X8.  A seat update that failed for want of a flight number leaves a
    context on which every further seat update fails the same way: the
    tool never sets [flight_number], and the context keeps the arguments
    of the latest failed call. *)
Theorem update_seat_failure_persists
  (ctx : AirlineAgentContext) (c1 s1 c2 s2 : str) :
  flight_number ctx = None ->
  flight_number (snd (update_seat c1 s1 ctx)) = None
  /\ update_seat c2 s2 (snd (update_seat c1 s1 ctx))
     = (Raise (AssertionError flight_required), seat_assigned ctx c2 s2).
Proof.
  intros Hnone. rewrite !update_seat_run. cbn [snd].
  rewrite seat_assigned_twice. cbn [seat_assigned flight_number].
  rewrite Hnone. split; reflexivity.
Qed.

Lemma update_seat_failure_persists_witness :
  update_seat (py "ABC123") (py "2B")
    (snd (update_seat (py "ABC123") (py "14C") ctx_no_flight))
  = (Raise (AssertionError flight_required),
     seat_assigned ctx_no_flight (py "ABC123") (py "2B")).
Proof.
  apply (update_seat_failure_persists ctx_no_flight
           (py "ABC123") (py "14C") (py "ABC123") (py "2B")).
  reflexivity.
Defined.

(** X9.  A successful [cancel_flight] leaves no trace: whatever runs next
    (a second cancellation, a seat update, a lookup of the flight number)
    behaves as if no cancellation had happened.  A failed one stops the
    sequence with the context untouched. *)
Theorem cancel_flight_leaves_no_trace
  (A : Type) (next : M A) (ctx : AirlineAgentContext) :
  (flight_number ctx <> None ->
   bind cancel_flight (fun _ => next) ctx = next ctx)
  /\ (flight_number ctx = None ->
      bind cancel_flight (fun _ => next) ctx
      = (Raise (AssertionError flight_required), ctx)).
Proof.
  unfold cancel_flight, bind, read, assert_, ret.
  destruct (flight_number ctx) as [fn|]; split; intros H;
    try congruence; cbn [is_not_None is_None negb];
    destruct (next ctx) as [[a|e] c]; reflexivity.
Qed.

Lemma cancel_flight_leaves_no_trace_witness :
  bind cancel_flight (fun _ => cancel_flight) create_initial_context
  = cancel_flight create_initial_context
  /\ bind cancel_flight (fun _ => update_seat (py "ABC123") (py "14C"))
       ctx_no_flight
     = (Raise (AssertionError flight_required), ctx_no_flight).
Proof.
  split.
  - apply (proj1 (cancel_flight_leaves_no_trace str cancel_flight
                    create_initial_context)).
    cbn [create_initial_context flight_number]. discriminate.
  - apply (proj2 (cancel_flight_leaves_no_trace str
                    (update_seat (py "ABC123") (py "14C")) ctx_no_flight)).
    reflexivity.
Defined.

(** ** The hooks in sequence *)

Lemma after_handoff_twice (ctx : AirlineAgentContext) :
  after_handoff (after_handoff ctx) = after_handoff ctx.
Proof. destruct ctx as [pn [cn|] sn [fn|] an]; reflexivity. Qed.

(** X10.  The two hooks are the same operation, although they test the
    two fields in opposite order, and running a hook again (or the other
    hook after it) changes nothing more. *)
Theorem handoff_hooks_idempotent (ctx : AirlineAgentContext) :
  on_cancellation_handoff ctx = on_seat_booking_handoff ctx
  /\ bind on_seat_booking_handoff (fun _ => on_seat_booking_handoff) ctx
     = on_seat_booking_handoff ctx
  /\ bind on_cancellation_handoff (fun _ => on_cancellation_handoff) ctx
     = on_cancellation_handoff ctx
  /\ bind on_seat_booking_handoff (fun _ => on_cancellation_handoff) ctx
     = on_seat_booking_handoff ctx.
Proof.
  unfold bind.
  rewrite !on_seat_booking_handoff_run, !on_cancellation_handoff_run.
  rewrite ?on_seat_booking_handoff_run, ?on_cancellation_handoff_run.
  rewrite after_handoff_twice. repeat split.
Qed.

(** X11.  On a context that has both a flight number and a confirmation
    number, each hook returns without changing anything. *)
Theorem handoff_hooks_keep_known_values (ctx : AirlineAgentContext) :
  flight_number ctx <> None ->
  confirmation_number ctx <> None ->
  on_seat_booking_handoff ctx = (Return tt, ctx)
  /\ on_cancellation_handoff ctx = (Return tt, ctx).
Proof.
  intros Hfn Hcn.
  rewrite on_seat_booking_handoff_run, on_cancellation_handoff_run.
  destruct ctx as [pn [cn|] sn [fn|] an]; cbn in Hfn, Hcn; try congruence.
  split; reflexivity.
Qed.

Lemma handoff_hooks_keep_known_values_witness :
  on_seat_booking_handoff create_initial_context
  = (Return tt, create_initial_context)
  /\ on_cancellation_handoff create_initial_context
     = (Return tt, create_initial_context).
Proof.
  apply (handoff_hooks_keep_known_values create_initial_context);
    cbn [create_initial_context flight_number confirmation_number];
    discriminate.
Defined.

(** X12.  A hook establishes the precondition of the tool behind it: on
    any context, the seat-booking hook followed by [update_seat] returns
    the update message, and the cancellation hook followed by
    [cancel_flight] confirms the cancellation of the context's flight, or
    of "FLT-456" if there was none. *)
Theorem hooks_establish_tool_preconditions
  (ctx : AirlineAgentContext) (confirmation new_seat : str) :
  bind on_seat_booking_handoff (fun _ => update_seat confirmation new_seat) ctx
  = (Return (update_seat_message confirmation new_seat),
     seat_assigned (after_handoff ctx) confirmation new_seat)
  /\ bind on_cancellation_handoff (fun _ => cancel_flight) ctx
     = (Return (cancel_message
                  (match flight_number ctx with
                   | Some fn => fn
                   | None => py "FLT-456"
                   end)),
        after_handoff ctx).
Proof.
  unfold bind.
  rewrite on_seat_booking_handoff_run, on_cancellation_handoff_run.
  rewrite update_seat_run. split.
  - destruct ctx as [pn cn sn [fn|] an]; reflexivity.
  - unfold cancel_flight, bind, read, assert_, ret, cancel_message.
    destruct ctx as [pn cn sn [fn|] an]; reflexivity.
Qed.

(** ** The instructions *)

Section InstructionFacts.
Variable RECOMMENDED_PROMPT_PREFIX : str.

Lemma seat_booking_instructions_shows
  (agent : agent_id) (ctx : AirlineAgentContext) :
  exists text,
    seat_booking_instructions RECOMMENDED_PROMPT_PREFIX agent ctx
    = (Return text, ctx)
    /\ contains (or_ (confirmation_number ctx) unknown) text = true.
Proof.
  unfold seat_booking_instructions, bind, read, ret, unknown.
  cbv beta iota zeta. eexists. split; [reflexivity|].
  do 7 apply contains_app_r. apply contains_here.
Qed.

Lemma flight_status_instructions_shows
  (agent : agent_id) (ctx : AirlineAgentContext) :
  exists text,
    flight_status_instructions RECOMMENDED_PROMPT_PREFIX agent ctx
    = (Return text, ctx)
    /\ contains (or_ (confirmation_number ctx) unknown) text = true
    /\ contains (or_ (flight_number ctx) unknown) text = true.
Proof.
  unfold flight_status_instructions, bind, read, ret, unknown.
  cbv beta iota zeta. eexists. split; [reflexivity|]. split.
  - do 5 apply contains_app_r. apply contains_here.
  - do 7 apply contains_app_r. apply contains_here.
Qed.

Lemma cancellation_instructions_shows
  (agent : agent_id) (ctx : AirlineAgentContext) :
  exists text,
    cancellation_instructions RECOMMENDED_PROMPT_PREFIX agent ctx
    = (Return text, ctx)
    /\ contains (or_ (confirmation_number ctx) unknown) text = true
    /\ contains (or_ (flight_number ctx) unknown) text = true.
Proof.
  unfold cancellation_instructions, bind, read, ret, unknown.
  cbv beta iota zeta. eexists. split; [reflexivity|]. split.
  - do 5 apply contains_app_r. apply contains_here.
  - do 7 apply contains_app_r. apply contains_here.
Qed.
End InstructionFacts.

(** X13.  Each instruction function returns its text without touching
    the context.  The text shows the confirmation number (and, for the
    status and cancellation agents, the flight number too) where the
    context has a non-empty one, and "[desconhecido]" in its place where
    the value is [None] or the empty string. *)
Theorem instructions_show_context_values
  (RECOMMENDED_PROMPT_PREFIX : str) (agent : agent_id)
  (ctx : AirlineAgentContext) :
  let shown_confirmation :=
    match confirmation_number ctx with
    | Some (c :: s) => c :: s
    | _ => unknown
    end in
  let shown_flight :=
    match flight_number ctx with
    | Some (c :: s) => c :: s
    | _ => unknown
    end in
  exists seat status cancellation,
    seat_booking_instructions RECOMMENDED_PROMPT_PREFIX agent ctx
      = (Return seat, ctx)
    /\ flight_status_instructions RECOMMENDED_PROMPT_PREFIX agent ctx
       = (Return status, ctx)
    /\ cancellation_instructions RECOMMENDED_PROMPT_PREFIX agent ctx
       = (Return cancellation, ctx)
    /\ contains shown_confirmation seat = true
    /\ contains shown_confirmation status = true
    /\ contains shown_flight status = true
    /\ contains shown_confirmation cancellation = true
    /\ contains shown_flight cancellation = true.
Proof.
  cbv zeta.
  destruct (seat_booking_instructions_shows RECOMMENDED_PROMPT_PREFIX agent ctx)
    as [seat [Hseat Hs1]].
  destruct (flight_status_instructions_shows RECOMMENDED_PROMPT_PREFIX agent ctx)
    as [status [Hstatus [Hf1 Hf2]]].
  destruct (cancellation_instructions_shows RECOMMENDED_PROMPT_PREFIX agent ctx)
    as [cancellation [Hcancel [Hc1 Hc2]]].
  exists seat, status, cancellation.
  assert (Hor : forall x, or_ x unknown
                          = match x with Some (c :: s) => c :: s | _ => unknown end).
  { intros [[|c s]|]; reflexivity. }
  rewrite Hor in Hs1, Hf1, Hf2, Hc1, Hc2.
  repeat split; assumption.
Qed.

(** X14.  After the seat-booking hook the seat-booking instructions show
    the default "ABC123" if the context had no confirmation number, the
    context's own number if it had a non-empty one, and still
    "[desconhecido]" if it held the empty string, which the hook does not
    replace. *)
Theorem seat_instructions_after_hook
  (RECOMMENDED_PROMPT_PREFIX : str) (agent : agent_id)
  (ctx : AirlineAgentContext) :
  exists text,
    bind on_seat_booking_handoff
      (fun _ => seat_booking_instructions RECOMMENDED_PROMPT_PREFIX agent) ctx
    = (Return text, after_handoff ctx)
    /\ contains
         (match confirmation_number ctx with
          | None => py "ABC123"
          | Some [] => unknown
          | Some (c :: s) => c :: s
          end) text = true.
Proof.
  unfold bind. rewrite on_seat_booking_handoff_run.
  destruct (seat_booking_instructions_shows RECOMMENDED_PROMPT_PREFIX agent
              (after_handoff ctx)) as [text [Hrun Hshow]].
  exists text. split; [exact Hrun|].
  destruct ctx as [pn [[|c s]|] sn fn an]; exact Hshow.
Qed.

(** X15.  [update_seat] does not check the confirmation number it is
    given against the one in the context: after a successful update the
    seat-booking instructions present the argument, whatever it was, as
    the customer's confirmation number. *)
Theorem seat_instructions_after_update
  (RECOMMENDED_PROMPT_PREFIX : str) (agent : agent_id)
  (ctx : AirlineAgentContext) (c : codepoint) (confirmation new_seat : str) :
  flight_number ctx <> None ->
  exists text,
    bind (update_seat (c :: confirmation) new_seat)
      (fun _ => seat_booking_instructions RECOMMENDED_PROMPT_PREFIX agent) ctx
    = (Return text, seat_assigned ctx (c :: confirmation) new_seat)
    /\ contains (c :: confirmation) text = true.
Proof.
  intros Hset. unfold bind. rewrite update_seat_run.
  destruct (flight_number ctx) as [fn|]; [|congruence].
  destruct (seat_booking_instructions_shows RECOMMENDED_PROMPT_PREFIX agent
              (seat_assigned ctx (c :: confirmation) new_seat))
    as [text [Hrun Hshow]].
  exists text. split; [exact Hrun | exact Hshow].
Qed.

Lemma seat_instructions_after_update_witness :
  exists text,
    bind (update_seat (py "XYZ789") (py "14C"))
      (fun _ => seat_booking_instructions [] seat_booking_agent)
      create_initial_context
    = (Return text, seat_assigned create_initial_context (py "XYZ789") (py "14C"))
    /\ contains (py "XYZ789") text = true.
Proof.
  apply (seat_instructions_after_update [] seat_booking_agent
           create_initial_context 88 (py "YZ789") (py "14C")).
  cbn [create_initial_context flight_number]. discriminate.
Defined.

(** ** More on the agent graph *)

Lemma handoffs_table (a : agent_id) :
  handoffs (agents a) =
  match a with
  | triage_agent =>
    [ to_agent flight_status_agent;
      handoff cancellation_agent on_cancellation_handoff;
      to_agent faq_agent;
      handoff seat_booking_agent on_seat_booking_handoff ]
  | guardrail_agent | jailbreak_guardrail_agent => []
  | _ => [to_agent triage_agent]
  end.
Proof. destruct a; reflexivity. Qed.

(** X16.  The graph is a star around triage: every handoff edge either
    leaves triage for one of the four specialised agents or leaves a
    specialised agent for triage.  No agent hands off to itself, to a
    classifier agent, or from one specialised agent to another, so a
    sequence of handoffs that starts at a specialised agent goes to
    triage first. *)
Theorem handoff_graph_is_a_star :
  (forall a b,
      In b (handoff_targets a) ->
      (a = triage_agent /\ In b specialised_agents)
      \/ (In a specialised_agents /\ b = triage_agent))
  /\ (forall a tgt rest b,
      a <> triage_agent ->
      follow a (tgt :: rest) = Some b -> tgt = triage_agent).
Proof.
  assert (Hstar : forall a b,
             In b (handoff_targets a) ->
             (a = triage_agent /\ In b specialised_agents)
             \/ (In a specialised_agents /\ b = triage_agent)).
  { intros a b H. unfold handoff_targets in H. rewrite handoffs_table in H.
    destruct a; cbn [map target In] in H;
      repeat (destruct H as [H|H]; [subst b|]); try contradiction;
      first [ left; split; [reflexivity | cbv; tauto]
            | right; split; [cbv; tauto | reflexivity] ]. }
  split; [exact Hstar|].
  intros a tgt rest b Hne Hrun. cbn [follow] in Hrun.
  destruct (find_handoff a tgt) as [e|] eqn:Hfind; [|discriminate Hrun].
  apply find_handoff_target in Hfind.
  destruct (Hstar a tgt Hfind) as [[Ha _] | [_ Htgt]];
    [contradiction | exact Htgt].
Qed.

Lemma handoff_graph_is_a_star_witness :
  follow faq_agent [triage_agent; seat_booking_agent] = Some seat_booking_agent
  /\ triage_agent = triage_agent.
Proof.
  assert (Hrun : follow faq_agent [triage_agent; seat_booking_agent]
                 = Some seat_booking_agent) by reflexivity.
  split; [exact Hrun|].
  apply (proj2 handoff_graph_is_a_star faq_agent triage_agent
           [seat_booking_agent] seat_booking_agent).
  - discriminate.
  - exact Hrun.
Defined.

(** X17.  Every handoff entry that leads to the seat-booking agent
    carries [on_seat_booking_handoff], every entry that leads to the
    cancellation agent carries [on_cancellation_handoff], and the entries
    to all other agents carry no callback. *)
Theorem handoff_entries_carry_hooks (a : agent_id) (e : handoff_entry) :
  In e (handoffs (agents a)) ->
  entry_hook e =
  match target e with
  | seat_booking_agent => Some on_seat_booking_handoff
  | cancellation_agent => Some on_cancellation_handoff
  | _ => None
  end.
Proof.
  intros H. rewrite handoffs_table in H.
  destruct a; cbn [In] in H;
    repeat (destruct H as [H|H]; [subst e; reflexivity|]); contradiction.
Qed.

Lemma handoff_entries_carry_hooks_witness :
  entry_hook (handoff seat_booking_agent on_seat_booking_handoff)
  = Some on_seat_booking_handoff.
Proof.
  apply (handoff_entries_carry_hooks triage_agent
           (handoff seat_booking_agent on_seat_booking_handoff)).
  rewrite handoffs_table. cbn [In]. tauto.
Defined.

(** X18.  No two of the seven agents share a name. *)
Theorem agent_names_unique (a b : agent_id) :
  name (agents a) = name (agents b) -> a = b.
Proof.
  intros H. destruct a, b; try reflexivity; vm_compute in H; discriminate H.
Qed.

Lemma agent_names_unique_witness :
  seat_booking_agent = seat_booking_agent.
Proof.
  apply (agent_names_unique seat_booking_agent seat_booking_agent).
  reflexivity.
Defined.

(** X19.  Whatever agent a sequence of handoffs from triage makes active,
    it is guarded by the relevance and the jailbreak guardrail, in this
    order; the two classifier agents behind the guardrails have no
    guardrails of their own. *)
Theorem active_agent_is_guarded (decisions : list agent_id) (a : agent_id) :
  follow triage_agent decisions = Some a ->
  input_guardrails (agents a) = both_guardrails
  /\ input_guardrails (agents guardrail_agent) = []
  /\ input_guardrails (agents jailbreak_guardrail_agent) = [].
Proof.
  intros Hrun.
  pose proof (follow_closed decisions triage_agent a triage_in_routing Hrun)
    as Hin.
  split; [|split; reflexivity].
  destruct a; try reflexivity; exfalso; cbv in Hin;
    repeat (destruct Hin as [Hin|Hin]; [discriminate Hin|]); exact Hin.
Qed.

Lemma active_agent_is_guarded_witness :
  input_guardrails (agents cancellation_agent) = both_guardrails.
Proof.
  apply (active_agent_is_guarded
           [faq_agent; triage_agent; cancellation_agent] cancellation_agent).
  reflexivity.
Defined.

(** X20.  No tool is offered by two agents, triage and the classifier
    agents offer none, and [baggage_tool] is offered by no agent at
    all. *)
Theorem tools_are_not_shared :
  (forall a b t,
      In t (tools (agents a)) -> In t (tools (agents b)) -> a = b)
  /\ tools (agents triage_agent) = []
  /\ tools (agents guardrail_agent) = []
  /\ tools (agents jailbreak_guardrail_agent) = []
  /\ (forall a, ~ In "baggage_tool"%string (tools (agents a))).
Proof.
  split; [|split; [reflexivity|split; [reflexivity|split; [reflexivity|]]]].
  - intros a b t Ha Hb.
    destruct a; cbv in Ha;
      repeat (destruct Ha as [Ha|Ha]; [subst t|]); try contradiction;
      destruct b; try reflexivity; cbv in Hb;
      repeat (destruct Hb as [Hb|Hb]; [discriminate Hb|]); contradiction.
  - intros a H.
    destruct a; cbv in H;
      repeat (destruct H as [H|H]; [discriminate H|]); exact H.
Qed.

Lemma tools_are_not_shared_witness :
  seat_booking_agent = seat_booking_agent.
Proof.
  apply (proj1 tools_are_not_shared seat_booking_agent seat_booking_agent
           "update_seat"%string); cbv; tauto.
Defined.

(** ** The guardrails when the run fails *)

(** X21.  When the classifier run raises, the guardrail produces no
    verdict: the same exception leaves the guardrail, with the context as
    the run left it.  Each guardrail depends on the run of its own
    classifier agent only. *)
Theorem guardrail_run_failure_passes_through
  (TResponseInputItem : Type)
  (Runner_run :
     forall a : agent_id, guardrail_input TResponseInputItem -> M (output_type a))
  (agent : agent_id) (input : guardrail_input TResponseInputItem)
  (ctx ctx' : AirlineAgentContext) (e : exn) :
  (Runner_run guardrail_agent input ctx = (Raise e, ctx') ->
   relevance_guardrail TResponseInputItem Runner_run agent input ctx
   = (Raise e, ctx'))
  /\ (Runner_run jailbreak_guardrail_agent input ctx = (Raise e, ctx') ->
      jailbreak_guardrail TResponseInputItem Runner_run agent input ctx
      = (Raise e, ctx')).
Proof.
  split; intros Hrun.
  - rewrite relevance_guardrail_run, Hrun. reflexivity.
  - rewrite jailbreak_guardrail_run, Hrun. reflexivity.
Qed.

Lemma guardrail_run_failure_passes_through_witness :
  relevance_guardrail Empty_set failing_run triage_agent
    (input_text (py "Oi")) create_initial_context
  = (Raise (AssertionError (py "model unavailable")), create_initial_context)
  /\ jailbreak_guardrail Empty_set failing_run triage_agent
       (input_text (py "Oi")) create_initial_context
     = (Raise (AssertionError (py "model unavailable")), create_initial_context).
Proof.
  split.
  - apply (proj1 (guardrail_run_failure_passes_through Empty_set failing_run
                    triage_agent (input_text (py "Oi")) create_initial_context
                    create_initial_context
                    (AssertionError (py "model unavailable")))).
    reflexivity.
  - apply (proj2 (guardrail_run_failure_passes_through Empty_set failing_run
                    triage_agent (input_text (py "Oi")) create_initial_context
                    create_initial_context
                    (AssertionError (py "model unavailable")))).
    reflexivity.
Defined.

(** ** Keywords inside other text *)

Lemma is_latin1_app (a b : str) :
  is_latin1 (a ++ b) = is_latin1 a && is_latin1 b.
Proof. apply forallb_app. Qed.

(** X22.  The baggage keywords count wherever they occur and in any
    letter case, also inside a longer word, and they win over every other
    category: a Latin-1 question that has "bag" or "mala" in it, in
    whatever case, gets the baggage text. *)
Theorem faq_baggage_keyword_anywhere
  (unicode_lower : str -> str) (before keyword after : str)
  (ctx : AirlineAgentContext) :
  is_latin1 before = true ->
  is_latin1 keyword = true ->
  is_latin1 after = true ->
  map lower_latin1 keyword = py "bag" \/ map lower_latin1 keyword = py "mala" ->
  faq_lookup_tool unicode_lower (before ++ keyword ++ after) ctx
  = (Return baggage_text, ctx).
Proof.
  intros Hb Hk Ha Hkw. apply faq_baggage.
  assert (Hlat : is_latin1 (before ++ keyword ++ after) = true).
  { rewrite !is_latin1_app, Hb, Hk, Ha. reflexivity. }
  rewrite (lower_latin1_text unicode_lower _ Hlat), !map_app.
  unfold baggage_keywords.
  destruct Hkw as [-> | ->].
  - rewrite (contains_app_r (py "bag") _ _ (contains_here (py "bag") _)).
    reflexivity.
  - rewrite (contains_app_r (py "mala") _ _ (contains_here (py "mala") _)).
    rewrite !orb_true_r. reflexivity.
Qed.

Lemma faq_baggage_keyword_anywhere_witness :
  faq_lookup_tool table_unused
    (py "Tem wifi no voo para " ++ py "Bag" ++ py "dá?") create_initial_context
  = (Return baggage_text, create_initial_context).
Proof.
  apply (faq_baggage_keyword_anywhere table_unused
           (py "Tem wifi no voo para ") (py "Bag") (py "dá?")
           create_initial_context); try reflexivity.
  left. reflexivity.
Defined.
